(** * Verification of the chat client [app/static/script.js]

    The client is a browser script: three [fetch] wrappers
    ([callGetToolList], [callCreateSession], [callQuery]), the helpers
    [initCheckbox] and [getSelectedTools], and the two click handlers
    [createSession] and [sendQuery].  The script is embedded as programs of
    a small monad [Js] over the page state [World]; a handler pauses at each
    network [await] and is resumed by the environment, so that several
    handlers may be in flight at once, as in the browser's event loop.

    Standing assumptions.  The script runs as a classic script, so that its
    assignments to the undeclared [toolList] and [result] create globals.
    The document holds the elements the script looks up
    ([#tool-container], [#query-input], [#chat-content-tmp] and the two
    buttons), and the children of [#tool-container] are entries of the shape
    [initCheckbox] builds.  An [await] on a value that is already there
    ([await getSelectedTools()], the return of a call wrapper) only yields
    to microtasks and is not a pause: a handler is interrupted only while it
    waits for the network. *)

From Stdlib Require Import String List Bool Arith Lia DecimalString.
Import ListNotations.
Open Scope string_scope.

(** ** JavaScript values

    The values the script handles: [undefined], [null] and whatever
    [response.json()] yields.  A number is carried by the text that
    [Number.prototype.toString] gives it, the only use the script could make
    of one.  An object is its list of own properties (keys distinct, as
    [JSON.parse] leaves them). *)

#[local] Set Warnings "-register-all".

Inductive JsValue : Type :=
| JUndefined
| JNull
| JBool (b : bool)
| JNum (repr : string)
| JStr (s : string)
| JArr (items : list JsValue)
| JObj (fields : list (string * JsValue)).

(** [x == null]: true of [null] and [undefined] only. *)
Definition nullish (v : JsValue) : bool :=
  match v with
  | JUndefined | JNull => true
  | _ => false
  end.

(** What [JSON.stringify] puts on the wire, as the value the receiver parses
    back: a property whose value is [undefined] is dropped from an object,
    an [undefined] array element becomes [null]. *)
Fixpoint json_stringify (v : JsValue) : JsValue :=
  match v with
  | JArr items =>
      JArr (map (fun x => match x with
                          | JUndefined => JNull
                          | _ => json_stringify x
                          end) items)
  | JObj fields =>
      JObj ((fix props (l : list (string * JsValue)) : list (string * JsValue) :=
               match l with
               | [] => []
               | (k, x) :: rest =>
                   match x with
                   | JUndefined => props rest
                   | _ => (k, json_stringify x) :: props rest
                   end
               end) fields)
  | _ => v
  end.

Fixpoint lookup (key : string) (fields : list (string * JsValue)) : JsValue :=
  match fields with
  | [] => JUndefined
  | (k, x) :: rest => if String.eqb k key then x else lookup key rest
  end.

(** ** Errors *)

Record JsError : Type := mkError { err_name : string; err_message : string }.

(** [new Error(message)] *)
Definition Error_ (message : string) : JsError := mkError "Error" message.

(** Reading a property of [undefined] or [null]. *)
Definition TypeError_read (base : JsValue) (prop : string) : JsError :=
  mkError "TypeError"
    ("Cannot read properties of " ++
     match base with
     | JNull => "null"
     | _ => "undefined"
     end ++ " (reading '" ++ prop ++ "')").

(** Calling a property that is not a function. *)
Definition TypeError_call (callee : string) : JsError :=
  mkError "TypeError" (callee ++ " is not a function").

(** Converting to a string an object that has no usable [toString]. *)
Definition TypeError_primitive : JsError :=
  mkError "TypeError" "Cannot convert object to primitive value".

Inductive Completion (A : Type) : Type :=
| Normal (a : A)
| Throw (e : JsError).
Arguments Normal {A} a.
Arguments Throw {A} e.

Definition has_own (key : string) (fields : list (string * JsValue)) : bool :=
  existsb (fun kv => String.eqb (fst kv) key) fields.

(** The abstract operation [ToString], as used by template literals and by
    DOM attributes of type [DOMString].  An array is joined with commas,
    its elements converted from left to right, [null] and [undefined]
    elements giving the empty string.  An object goes through its
    [toString]: the one of [Object.prototype] answers ["[object Object]"];
    an own property [toString], which in a value that came out of JSON is
    never a function, shadows it, and as [valueOf] gives back the object
    the conversion throws a [TypeError]. *)
Fixpoint to_string (v : JsValue) : Completion string :=
  match v with
  | JUndefined => Normal "undefined"
  | JNull => Normal "null"
  | JBool true => Normal "true"
  | JBool false => Normal "false"
  | JNum repr => Normal repr
  | JStr s => Normal s
  | JArr items =>
      (fix join (l : list JsValue) : Completion string :=
         match l with
         | [] => Normal ""
         | x :: rest =>
             match match x with
                   | JUndefined | JNull => Normal ""
                   | _ => to_string x
                   end with
             | Throw e => Throw e
             | Normal sx =>
                 match rest with
                 | [] => Normal sx
                 | _ :: _ =>
                     match join rest with
                     | Throw e => Throw e
                     | Normal sr => Normal (sx ++ "," ++ sr)
                     end
                 end
             end
         end) items
  | JObj fields =>
      if has_own "toString" fields
      then Throw TypeError_primitive
      else Normal "[object Object]"
  end.

(** Property read [v.key], for the names the script reads ([tools],
    [session_id], [response], [name], [description]): none of them lives on
    a prototype, so a primitive or an array answers [undefined]. *)
Definition get_prop (v : JsValue) (key : string) : Completion JsValue :=
  match v with
  | JUndefined | JNull => Throw (TypeError_read v key)
  | JObj fields => Normal (lookup key fields)
  | _ => Normal JUndefined
  end.

(** ** The page

    Attribute assignments convert their right-hand side as the attribute's
    IDL type says: [id] and [htmlFor] are [DOMString]; an input's [value]
    is a [DOMString] that takes [null] to the empty string; [textContent]
    is a nullable [DOMString], where [null] and [undefined] both clear the
    text.  The conversion may throw, and then nothing is assigned. *)

Definition dom_string (v : JsValue) : Completion string := to_string v.

Definition dom_string_null_empty (v : JsValue) : Completion string :=
  match v with
  | JNull => Normal ""
  | _ => to_string v
  end.

Definition dom_string_nullable (v : JsValue) : Completion string :=
  if nullish v then Normal "" else to_string v.

(** One child of [#tool-container] as [initCheckbox] builds it: a [div]
    holding an [input], a [label] and a [p]. *)
Record ToolItem : Type := mkToolItem {
  wrapper_class : string;
  checkbox_type : string;
  checkbox_id : string;
  checkbox_value : string;
  checkbox_checked : bool;
  label_for : string;
  label_text : string;
  description_text : string;
  description_class : string
}.

Record Request : Type := mkRequest {
  req_url : string;
  req_method : string;
  req_headers : list (string * string);
  req_body : option JsValue
}.

(** A [Response] as far as the script looks at it. *)
Record Response : Type := mkResponse {
  resp_url : string;
  resp_status : nat
}.

(** An ok status is one in the range 200-299; [response.ok] says whether
    the response has one. *)
Definition ok_status (status : nat) : bool :=
  ((200 <=? status) && (status <=? 299))%nat.

Definition response_ok (r : Response) : bool := ok_status (resp_status r).

(** [`${response.status}`]: the status in decimal. *)
Definition status_text (r : Response) : string :=
  NilZero.string_of_uint (Nat.to_uint (resp_status r)).

(** What the script does to the outside, in the order it does it. *)
Inductive Event : Type :=
| EvFetch (req : Request)
| EvAlert (msg : string)
| EvLog (v : JsValue)
| EvError (msg : string)
| EvUnhandledRejection (e : JsError).

(** The script's variables ([toolList] and [result] are the globals its
    undeclared assignments create), the parts of the document it reads or
    writes, the click listeners it has registered, and the events so far. *)
Record World : Type := mkWorld {
  currentSessinId : JsValue;
  userId : string;
  toolList : JsValue;
  result : JsValue;
  tool_container : list ToolItem;
  query_input : string;
  chat_content_tmp : string;
  createSessionBtn_click : bool;
  sendMessageBtn_click : bool;
  events : list Event
}.

Definition set_currentSessinId (v : JsValue) (w : World) : World :=
  mkWorld v (userId w) (toolList w) (result w) (tool_container w)
    (query_input w) (chat_content_tmp w) (createSessionBtn_click w)
    (sendMessageBtn_click w) (events w).

Definition set_toolList (v : JsValue) (w : World) : World :=
  mkWorld (currentSessinId w) (userId w) v (result w) (tool_container w)
    (query_input w) (chat_content_tmp w) (createSessionBtn_click w)
    (sendMessageBtn_click w) (events w).

Definition set_result (v : JsValue) (w : World) : World :=
  mkWorld (currentSessinId w) (userId w) (toolList w) v (tool_container w)
    (query_input w) (chat_content_tmp w) (createSessionBtn_click w)
    (sendMessageBtn_click w) (events w).

Definition set_tool_container (l : list ToolItem) (w : World) : World :=
  mkWorld (currentSessinId w) (userId w) (toolList w) (result w) l
    (query_input w) (chat_content_tmp w) (createSessionBtn_click w)
    (sendMessageBtn_click w) (events w).

Definition set_query_input (s : string) (w : World) : World :=
  mkWorld (currentSessinId w) (userId w) (toolList w) (result w)
    (tool_container w) s (chat_content_tmp w) (createSessionBtn_click w)
    (sendMessageBtn_click w) (events w).

Definition set_chat_content_tmp (s : string) (w : World) : World :=
  mkWorld (currentSessinId w) (userId w) (toolList w) (result w)
    (tool_container w) (query_input w) s (createSessionBtn_click w)
    (sendMessageBtn_click w) (events w).

Definition set_createSessionBtn_click (b : bool) (w : World) : World :=
  mkWorld (currentSessinId w) (userId w) (toolList w) (result w)
    (tool_container w) (query_input w) (chat_content_tmp w) b
    (sendMessageBtn_click w) (events w).

Definition set_sendMessageBtn_click (b : bool) (w : World) : World :=
  mkWorld (currentSessinId w) (userId w) (toolList w) (result w)
    (tool_container w) (query_input w) (chat_content_tmp w)
    (createSessionBtn_click w) b (events w).

Definition emit (ev : Event) (w : World) : World :=
  mkWorld (currentSessinId w) (userId w) (toolList w) (result w)
    (tool_container w) (query_input w) (chat_content_tmp w)
    (createSessionBtn_click w) (sendMessageBtn_click w) (events w ++ [ev]).

(** ** The monad of asynchronous scripts

    A script runs on the world until it finishes, normally or by throwing,
    or until it awaits the network.  The two things the script awaits are
    the arrival of a response ([fetch]) and the arrival and parsing of its
    body ([response.json()]); either may instead reject.  A paused script
    keeps the world as it left it and a continuation that is handed the
    answer and the world as it is when the answer comes. *)

Inductive IO : Type -> Type :=
| Fetch (req : Request) : IO (JsError + nat)
| ReadJson (resp : Response) : IO (JsError + JsValue).

Inductive Run (A : Type) : Type :=
| Finished (c : Completion A) (w : World)
| Suspended (R : Type) (io : IO R) (w : World) (k : R -> World -> Run A).
Arguments Finished {A} c w.
Arguments Suspended {A} R io w k.

Definition Js (A : Type) : Type := World -> Run A.

Definition ret {A} (a : A) : Js A := fun w => Finished (Normal a) w.

Definition throw {A} (e : JsError) : Js A := fun w => Finished (Throw e) w.

Fixpoint bind_run {A B} (r : Run A) (f : A -> Js B) : Run B :=
  match r with
  | Finished (Normal a) w => f a w
  | Finished (Throw e) w => Finished (Throw e) w
  | Suspended R io w k => Suspended R io w (fun ans w' => bind_run (k ans w') f)
  end.

Definition bind {A B} (m : Js A) (f : A -> Js B) : Js B :=
  fun w => bind_run (m w) f.

(** [try { m } catch (e) { h e }] *)
Fixpoint catch_run {A} (r : Run A) (h : JsError -> Js A) : Run A :=
  match r with
  | Finished (Normal a) w => Finished (Normal a) w
  | Finished (Throw e) w => h e w
  | Suspended R io w k => Suspended R io w (fun ans w' => catch_run (k ans w') h)
  end.

Definition try_catch {A} (m : Js A) (h : JsError -> Js A) : Js A :=
  fun w => catch_run (m w) h.

Declare Scope js_scope.
Delimit Scope js_scope with js.
Notation "x <- m ;; k" := (bind m (fun x => k))
  (at level 61, m at next level, right associativity) : js_scope.
Notation "m ;; k" := (bind m (fun _ => k))
  (at level 61, right associativity) : js_scope.
Open Scope js_scope.

Definition gets {A} (f : World -> A) : Js A := fun w => Finished (Normal (f w)) w.

Definition modify (f : World -> World) : Js unit :=
  fun w => Finished (Normal tt) (f w).

Definition lift {A} (c : Completion A) : Js A := fun w => Finished c w.

Definition await {R} (io : IO R) : Js R :=
  fun w => Suspended R io w (fun ans w' => Finished (Normal ans) w').

(** [await fetch(...)]: the request goes out, and the promise either rejects
    or resolves to a response for that request. *)
Definition fetch (req : Request) : Js Response :=
  modify (emit (EvFetch req)) ;;
  ans <- await (Fetch req) ;;
  match ans with
  | inl e => throw e
  | inr status => ret (mkResponse (req_url req) status)
  end.

(** [await response.json()] *)
Definition response_json (resp : Response) : Js JsValue :=
  ans <- await (ReadJson resp) ;;
  match ans with
  | inl e => throw e
  | inr v => ret v
  end.

Definition alert (msg : string) : Js unit := modify (emit (EvAlert msg)).
Definition console_log (v : JsValue) : Js unit := modify (emit (EvLog v)).
Definition console_error (msg : string) : Js unit := modify (emit (EvError msg)).

Fixpoint each {A} (f : A -> Js unit) (l : list A) : Js unit :=
  match l with
  | [] => ret tt
  | x :: rest => f x ;; each f rest
  end.

(** [v.forEach(f)] for a value [v] that came out of JSON: only an array has
    the method. *)
Definition forEach (callee : string) (v : JsValue) (f : JsValue -> Js unit) : Js unit :=
  match v with
  | JUndefined | JNull => throw (TypeError_read v "forEach")
  | JArr items => each f items
  | _ => throw (TypeError_call (callee ++ ".forEach"))
  end.

(** ** The script *)

Definition getToolListEndpoint : string := "/tools".
Definition createSessionEndpoint : string := "/sessions/create".
Definition queryEndpoint : string := "/query".

Definition json_headers : list (string * string) :=
  [("Content-Type", "application/json")].

Definition callGetToolList : Js JsValue :=
  try_catch
    (response <- fetch (mkRequest getToolListEndpoint "GET" [] None) ;;
     if negb (response_ok response)
     then throw (Error_ ("HTTP error! Status: " ++ status_text response))
     else
       result <- response_json response ;;
       ret result)
    (fun e => console_error (err_message e) ;; ret JUndefined).

Definition callCreateSession (selectedTools : JsValue) : Js JsValue :=
  try_catch
    (user <- gets userId ;;
     response <- fetch (mkRequest createSessionEndpoint "POST" json_headers
                          (Some (json_stringify
                                   (JObj [("user_id", JStr user);
                                          ("tool_names", selectedTools)])))) ;;
     if negb (response_ok response)
     then throw (Error_ ("HTTP error! Status: " ++ status_text response))
     else
       result <- response_json response ;;
       ret result)
    (fun e => console_error (err_message e) ;; ret JUndefined).

Definition callQuery (query : string) : Js JsValue :=
  try_catch
    (user <- gets userId ;;
     session <- gets currentSessinId ;;
     response <- fetch (mkRequest queryEndpoint "POST" json_headers
                          (Some (json_stringify
                                   (JObj [("user_id", JStr user);
                                          ("query", JStr query);
                                          ("session_id", session)])))) ;;
     if negb (response_ok response)
     then throw (Error_ ("HTTP error! Status: " ++ status_text response))
     else
       result <- response_json response ;;
       ret result)
    (fun e => console_error (err_message e) ;; ret JUndefined).

(** The body of the [forEach] callback of [initCheckbox]: the three
    elements are filled in, then attached to the container. *)
Definition appendTool (tool : JsValue) : Js unit :=
  name <- lift (get_prop tool "name") ;;
  checkbox_id <- lift (dom_string name) ;;
  name <- lift (get_prop tool "name") ;;
  checkbox_value <- lift (dom_string_null_empty name) ;;
  name <- lift (get_prop tool "name") ;;
  label_htmlFor <- lift (dom_string name) ;;
  name <- lift (get_prop tool "name") ;;
  label_textContent <- lift (dom_string_nullable name) ;;
  description <- lift (get_prop tool "description") ;;
  description_textContent <- lift (dom_string_nullable description) ;;
  modify (fun w =>
    set_tool_container
      (tool_container w ++
       [mkToolItem "tool-item" "checkbox" checkbox_id checkbox_value false
          label_htmlFor label_textContent description_textContent
          "tool-description"])
      w).

Definition initCheckbox : Js unit :=
  fetched <- callGetToolList ;;
  modify (set_toolList fetched) ;;
  list <- gets toolList ;;
  tools <- lift (get_prop list "tools") ;;
  forEach "toolList.tools" tools appendTool.

(** [querySelectorAll('#tool-container input[type="checkbox"]:checked')] *)
Definition querySelectorAll_checked (container : list ToolItem) : list ToolItem :=
  filter (fun item => String.eqb (checkbox_type item) "checkbox" && checkbox_checked item)
    container.

Definition selected_tools (w : World) : list string :=
  map checkbox_value (querySelectorAll_checked (tool_container w)).

Definition getSelectedTools : Js (list string) :=
  checkBoxes <- gets (fun w => querySelectorAll_checked (tool_container w)) ;;
  let selectedTools := map checkbox_value checkBoxes in
  console_log (JArr (map JStr selectedTools)) ;;
  ret selectedTools.

Definition createSession : Js unit :=
  selectedTools <- getSelectedTools ;;
  if (length selectedTools =? 0)%nat
  then alert "ツールが選択されていません"
  else
    newSessinId <- callCreateSession (JArr (map JStr selectedTools)) ;;
    session_id <- lift (get_prop newSessinId "session_id") ;;
    modify (set_currentSessinId session_id).

Definition sendQuery : Js unit :=
  session <- gets currentSessinId ;;
  if nullish session
  then alert "セッションが開始されていません。ツールを選択しセッションを開始してください"
  else
    query <- gets query_input ;;
    if String.eqb query ""
    then alert "何も入力されていません。"
    else
      session <- gets currentSessinId ;;
      session_text <- lift (to_string session) ;;
      console_log (JStr ("現在のセッション: " ++ session_text)) ;;
      console_log (JStr ("入力されたクエリ: " ++ query)) ;;
      answer <- callQuery query ;;
      modify (set_result answer) ;;
      answer <- gets result ;;
      response <- lift (get_prop answer "response") ;;
      text <- lift (dom_string_nullable response) ;;
      modify (set_chat_content_tmp text).

(** The [DOMContentLoaded] listener: the two buttons get their click
    listeners only after [initCheckbox] has returned. *)
Definition onDOMContentLoaded : Js unit :=
  initCheckbox ;;
  modify (set_createSessionBtn_click true) ;;
  modify (set_sendMessageBtn_click true).

(** ** The environment

    The environment answers an awaited operation with a reply of the
    matching kind.  A [Contract] says which answers may come; the
    weakest one lets every answer through. *)

Inductive Reply : Type :=
| FetchReply (ans : JsError + nat)
| JsonReply (ans : JsError + JsValue).

Definition Contract : Type := forall R, IO R -> R -> bool.

Definition any_reply : Contract := fun _ _ _ => true.

(** The world a run stopped in. *)
Definition run_world {A} (r : Run A) : World :=
  match r with
  | Finished _ w => w
  | Suspended _ _ w _ => w
  end.

(** Hand a reply to a paused run, in the world [w'] of that moment. *)
Definition resume {A} (C : Contract) (rp : Reply) (r : Run A) (w' : World)
  : option (Run A) :=
  match r with
  | Finished _ _ => None
  | Suspended R io _ k =>
      match io in IO R0 return (R0 -> World -> Run A) -> option (Run A) with
      | Fetch req => fun k =>
          match rp with
          | FetchReply ans =>
              if C _ (Fetch req) ans then Some (k ans w') else None
          | JsonReply _ => None
          end
      | ReadJson resp => fun k =>
          match rp with
          | JsonReply ans =>
              if C _ (ReadJson resp) ans then Some (k ans w') else None
          | FetchReply _ => None
          end
      end k
  end.

(** A handler followed through its pauses: each reply comes with the world
    it arrives in, which other handlers and the user may have changed in
    the meantime. *)
Fixpoint drive {A} (arrivals : list (Reply * World)) (r : Run A) : Run A :=
  match arrivals with
  | [] => r
  | (rp, w') :: rest =>
      match resume any_reply rp r w' with
      | Some r' => drive rest r'
      | None => r
      end
  end.

(** The request a run is waiting on, if it is waiting on one. *)
Definition awaited_request {A} (r : Run A) : option Request :=
  match r with
  | Suspended _ (Fetch req) _ _ => Some req
  | _ => None
  end.

(** ** The page as a system

    The world together with the handlers that are paused on the network.
    The user clicks the two buttons, ticks checkboxes and types a query;
    the network answers any paused handler, in any order. *)

Record Sys : Type := mkSys {
  world : World;
  pending : list (Run unit)
}.

(** A handler that stopped: if it finished it is gone (a throw surfaces as
    an unhandled rejection of the listener's promise), if it paused it
    waits among the pending ones. *)
Definition settle (r : Run unit) (before after : list (Run unit)) : Sys :=
  match r with
  | Finished (Normal _) w => mkSys w (before ++ after)
  | Finished (Throw e) w => mkSys (emit (EvUnhandledRejection e) w) (before ++ after)
  | Suspended _ _ w _ => mkSys w (before ++ r :: after)
  end.

Definition spawn (handler : Js unit) (s : Sys) : Sys :=
  settle (handler (world s)) (pending s) [].

Fixpoint toggle (i : nat) (items : list ToolItem) : list ToolItem :=
  match items, i with
  | [], _ => []
  | item :: rest, O =>
      mkToolItem (wrapper_class item) (checkbox_type item) (checkbox_id item)
        (checkbox_value item) (negb (checkbox_checked item)) (label_for item)
        (label_text item) (description_text item) (description_class item)
      :: rest
  | item :: rest, S j => item :: toggle j rest
  end.

Inductive Action : Type :=
| ClickCreateSession
| ClickSendMessage
| ToggleCheckbox (i : nat)
| TypeQuery (text : string)
| Deliver (i : nat) (rp : Reply).

Definition step (C : Contract) (a : Action) (s : Sys) : option Sys :=
  match a with
  | ClickCreateSession =>
      Some (if createSessionBtn_click (world s) then spawn createSession s else s)
  | ClickSendMessage =>
      Some (if sendMessageBtn_click (world s) then spawn sendQuery s else s)
  | ToggleCheckbox i =>
      Some (mkSys (set_tool_container (toggle i (tool_container (world s))) (world s))
              (pending s))
  | TypeQuery text =>
      Some (mkSys (set_query_input text (world s)) (pending s))
  | Deliver i rp =>
      match nth_error (pending s) i with
      | None => None
      | Some task =>
          match resume C rp task (world s) with
          | None => None
          | Some r => Some (settle r (firstn i (pending s)) (skipn (S i) (pending s)))
          end
      end
  end.

Fixpoint run (C : Contract) (acts : list Action) (s : Sys) : option Sys :=
  match acts with
  | [] => Some s
  | a :: rest =>
      match step C a s with
      | None => None
      | Some s' => run C rest s'
      end
  end.

(** The document as served, before the script has run. *)
Record Page : Type := mkPage {
  page_tool_container : list ToolItem;
  page_query_input : string;
  page_chat_content_tmp : string
}.

Definition initial_world (p : Page) : World :=
  mkWorld JNull "default_user" JUndefined JUndefined (page_tool_container p)
    (page_query_input p) (page_chat_content_tmp p) false false [].

Definition boot (p : Page) : Sys :=
  spawn onDOMContentLoaded (mkSys (initial_world p) []).

Definition reachable (C : Contract) (p : Page) (s : Sys) : Prop :=
  exists acts, run C acts (boot p) = Some s.

(** ** Atomic segments

    Between two pauses a handler runs without interruption.  A segment
    starts when a handler is called or when a pending one is answered. *)

Inductive Trigger : Type :=
| Started
| Resumed (R : Type) (io : IO R) (ans : R).

(** The response and the parsed body, when the trigger is the arrival of a
    body. *)
Definition json_arrival (tr : Trigger) : option (Response * JsValue) :=
  match tr with
  | Started => None
  | Resumed R io ans =>
      match io in IO R0 return R0 -> option (Response * JsValue) with
      | Fetch _ => fun _ => None
      | ReadJson resp => fun ans =>
          match ans with
          | inl _ => None
          | inr v => Some (resp, v)
          end
      end ans
  end.

Definition allowed (C : Contract) (tr : Trigger) : bool :=
  match tr with
  | Started => true
  | Resumed R io ans => C R io ans
  end.

(** The segment an action starts. *)
Definition trigger_of (a : Action) (s : Sys) : option Trigger :=
  match a with
  | ClickCreateSession =>
      if createSessionBtn_click (world s) then Some Started else None
  | ClickSendMessage =>
      if sendMessageBtn_click (world s) then Some Started else None
  | ToggleCheckbox _ | TypeQuery _ => None
  | Deliver i rp =>
      match nth_error (pending s) i with
      | Some (Suspended R io _ _) =>
          match io in IO R0 return option Trigger with
          | Fetch req =>
              match rp with
              | FetchReply ans => Some (Resumed _ (Fetch req) ans)
              | JsonReply _ => None
              end
          | ReadJson resp =>
              match rp with
              | JsonReply ans => Some (Resumed _ (ReadJson resp) ans)
              | FetchReply _ => None
              end
          end
      | _ => None
      end
  end.

(** ** Atomic segments, continued

    A relation [G] between the trigger of a segment, the world it starts in
    and the world it stops in holds of a run when it holds of each of its
    segments, whatever the answers and the worlds they arrive in. *)

Section SegmentDefinitions.

Variable G : Trigger -> World -> World -> Prop.

Fixpoint segments {A} (tr : Trigger) (w0 : World) (r : Run A) : Prop :=
  match r with
  | Finished _ w => G tr w0 w
  | Suspended R io w k =>
      G tr w0 w /\
      forall (ans : R) (w' : World), segments (Resumed R io ans) w' (k ans w')
  end.

(** A pending handler all of whose remaining segments satisfy [G]. *)
Definition task_ok (r : Run unit) : Prop :=
  match r with
  | Finished _ _ => True
  | Suspended R io _ k =>
      forall (ans : R) (w' : World), segments (Resumed R io ans) w' (k ans w')
  end.

Definition sys_ok (s : Sys) : Prop := Forall task_ok (pending s).

End SegmentDefinitions.

(** The world after a handler has stopped is the one its segment reached,
    but for the report of a rejection nobody handles. *)
Definition landed (w1 w' : World) : Prop :=
  w' = w1 \/ exists e, w' = emit (EvUnhandledRejection e) w1.

(** The body of a [/query] request as the server parses it. *)
Definition query_body (user query : string) (session : JsValue) : JsValue :=
  JObj [("user_id", JStr user); ("query", JStr query); ("session_id", session)].

(** The session id a segment leaves behind: the [session_id] of the body,
    when the segment starts with the arrival of the body of a
    [/sessions/create] response and that body is not [null]; the old id in
    every other case. *)
Definition session_after (tr : Trigger) (old : JsValue) : JsValue :=
  match json_arrival tr with
  | Some (resp, v) =>
      if String.eqb (resp_url resp) createSessionEndpoint
      then match get_prop v "session_id" with
           | Normal session_id => session_id
           | Throw _ => old
           end
      else old
  | None => old
  end.

(** Any segment leaves [userId] alone; it only adds events; a [/query]
    request among them is sent while a session id is held, carries the user
    id, the text of the query box and that session id, and the segment does
    not touch the id; and the session id becomes what [session_after]
    says. *)
Definition Summary (tr : Trigger) (w0 w : World) : Prop :=
  userId w = userId w0 /\
  (exists evs,
      events w = (events w0 ++ evs)%list /\
      forall req, In (EvFetch req) evs -> req_url req = queryEndpoint ->
        nullish (currentSessinId w0) = false /\
        currentSessinId w = currentSessinId w0 /\
        req_body req =
          Some (query_body (userId w0) (query_input w0)
                  (json_stringify (currentSessinId w0)))) /\
  currentSessinId w = session_after tr (currentSessinId w0).

(** Worlds that differ at most in the tool container. *)
Definition same_but_tools (w w' : World) : Prop :=
  currentSessinId w' = currentSessinId w /\
  userId w' = userId w /\
  toolList w' = toolList w /\
  result w' = result w /\
  query_input w' = query_input w /\
  chat_content_tmp w' = chat_content_tmp w /\
  createSessionBtn_click w' = createSessionBtn_click w /\
  sendMessageBtn_click w' = sendMessageBtn_click w /\
  events w' = events w.

(** The same for the step an action makes. *)
Definition session_after_action (a : Action) (s : Sys) (old : JsValue) : JsValue :=
  match trigger_of a s with
  | Some tr => session_after tr old
  | None => old
  end.

Definition allowed_action (C : Contract) (a : Action) (s : Sys) : bool :=
  match trigger_of a s with
  | Some tr => allowed C tr
  | None => true
  end.

(** ** Contracts on the server's answers *)


(** No session creation succeeds: no body of a [/sessions/create] response
    arrives. *)
Definition no_new_session : Contract :=
  fun R io =>
    match io in IO R0 return R0 -> bool with
    | Fetch _ => fun _ => true
    | ReadJson resp => fun ans =>
        match ans with
        | inl _ => true
        | inr _ => negb (String.eqb (resp_url resp) createSessionEndpoint)
        end
    end.

(** The [i]-th pending handler awaits the body of a response from [url]. *)
Definition awaits_body_from (url : string) (i : nat) (s : Sys) : bool :=
  match nth_error (pending s) i with
  | Some (Suspended _ (ReadJson resp) _ _) => String.eqb (resp_url resp) url
  | _ => false
  end.

(** ** Vocabulary of the statements *)

Definition no_session_warning : string :=
  "セッションが開始されていません。ツールを選択しセッションを開始してください".

Definition no_tool_warning : string := "ツールが選択されていません".

(** The three operations of the client that go to the server. *)
Inductive Operation : Type :=
| CatalogFetch
| SessionCreation
| Query.

Definition handler (op : Operation) : Js unit :=
  match op with
  | CatalogFetch => initCheckbox
  | SessionCreation => createSession
  | Query => sendQuery
  end.

Definition http_error_message (status : nat) : string :=
  "HTTP error! Status: " ++ NilZero.string_of_uint (Nat.to_uint status).

(** A tool of the catalog, as the [/tools] endpoint serves it. *)
Record Tool : Type := mkTool {
  tool_name : string;
  tool_description : string
}.

Definition tool_json (t : Tool) : JsValue :=
  JObj [("name", JStr (tool_name t)); ("description", JStr (tool_description t))].

Definition catalog_json (tools : list Tool) : JsValue :=
  JObj [("tools", JArr (map tool_json tools))].

(** The checklist entry of a tool: an unticked checkbox whose id and value
    are the tool's name, a label for it showing the name, and a paragraph
    showing the description. *)
Definition checklist_entry (t : Tool) : ToolItem :=
  mkToolItem "tool-item" "checkbox" (tool_name t) (tool_name t) false
    (tool_name t) (tool_name t) (tool_description t) "tool-description".

(** The three call functions. *)
Inductive Call : Type :=
| GetToolList
| CreateSession (selectedTools : JsValue)
| QueryCall (query : string).

Definition call (c : Call) : Js JsValue :=
  match c with
  | GetToolList => callGetToolList
  | CreateSession selectedTools => callCreateSession selectedTools
  | QueryCall query => callQuery query
  end.

(** The ways a call fails, with the message of the error and the world in
    which it is caught: [fetch] rejects; the response has no ok status; the
    response is ok but reading or parsing its body rejects. *)
Definition failure (arrivals : list (Reply * World)) : option (string * World) :=
  match arrivals with
  | [(FetchReply (inl e), w1)] => Some (err_message e, w1)
  | [(FetchReply (inr status), w1)] =>
      if ok_status status then None else Some (http_error_message status, w1)
  | [(FetchReply (inr status), _); (JsonReply (inl e), w2)] =>
      if ok_status status then Some (err_message e, w2) else None
  | _ => None
  end.

(** ** Sample pages and runs *)

Definition blank_page : Page := mkPage [] "" "".

(** A page on which nothing was fetched yet: no session, the text
    ["hello"] in the query box. *)
Definition fresh_world : World :=
  set_query_input "hello" (initial_world blank_page).

(** The same with the one tool ["search"] ticked, and once more with the
    session ["abc123"] held. *)
Definition ready_world : World :=
  set_tool_container
    [mkToolItem "tool-item" "checkbox" "search" "search" true "search" "search"
       "Web search" "tool-description"]
    fresh_world.

Definition session_world : World := set_currentSessinId (JStr "abc123") ready_world.

Definition search_catalog : JsValue := catalog_json [mkTool "search" "Web search"].

(** The page loads and shows the catalog; the buttons are live. *)
Definition load_page : list Action :=
  [Deliver 0 (FetchReply (inr 200)); Deliver 0 (JsonReply (inr search_catalog))].

(** The state a run ends in (the state it started in, if some action of
    the run is not enabled). *)
Definition after_run (C : Contract) (acts : list Action) (s : Sys) : Sys :=
  match run C acts s with
  | Some s' => s'
  | None => s
  end.

(** A run of the page: it loads, the user ticks ["search"] and starts a
    session, the server answers [{session_id: "abc123"}]; the user sends
    ["hello"], gets an answer, and types ["again"]. *)
Definition until_creation_body : list Action :=
  load_page ++ [ToggleCheckbox 0; ClickCreateSession; Deliver 0 (FetchReply (inr 200))].

Definition creation_body : JsValue := JObj [("session_id", JStr "abc123")].

Definition first_exchange : list Action :=
  [TypeQuery "hello"; ClickSendMessage; Deliver 0 (FetchReply (inr 200));
   Deliver 0 (JsonReply (inr (JObj [("response", JStr "hi")])));
   TypeQuery "again"].

Definition awaiting_session : Sys :=
  after_run any_reply until_creation_body (boot blank_page).

Definition with_session : Sys :=
  after_run any_reply [Deliver 0 (JsonReply (inr creation_body))] awaiting_session.

Definition after_first_exchange : Sys :=
  after_run no_new_session first_exchange with_session.

Definition second_query_sent : Sys :=
  after_run no_new_session [ClickSendMessage] after_first_exchange.

Definition second_query : Request :=
  mkRequest queryEndpoint "POST" json_headers
    (Some (query_body "default_user" "again" (JStr "abc123"))).

(** ** Further vocabulary *)

Definition empty_query_warning : string := "何も入力されていません。".

(** The request [createSession] sends for a selection, and the request of
    [initCheckbox]. *)
Definition creation_request (user : string) (names : list string) : Request :=
  mkRequest createSessionEndpoint "POST" json_headers
    (Some (JObj [("user_id", JStr user); ("tool_names", JArr (map JStr names))])).

Definition catalog_request : Request := mkRequest getToolListEndpoint "GET" [] None.

Definition query_request (user query : string) (session : JsValue) : Request :=
  mkRequest queryEndpoint "POST" json_headers (Some (query_body user query session)).

(** The array under [tools], when the body has one. *)
Definition tools_array (body : JsValue) : option (list JsValue) :=
  match get_prop body "tools" with
  | Normal (JArr items) => Some items
  | _ => None
  end.

(** A [fetch] that did not bring an ok response, and what is logged. *)
Definition fetch_failed (ans : JsError + nat) : bool :=
  match ans with
  | inl _ => true
  | inr status => negb (ok_status status)
  end.

Definition fetch_failure_message (ans : JsError + nat) : string :=
  match ans with
  | inl e => err_message e
  | inr status => http_error_message status
  end.

(** The requests the script may send on behalf of [user]: the catalog
    request; a creation for a selection that is not empty; a query with a
    text that is not empty and a session id that is neither [null] nor
    [undefined]. *)
Definition sent_ok (user : string) (req : Request) : Prop :=
  req = catalog_request \/
  (exists names, names <> [] /\ req = creation_request user names) \/
  (exists query session,
      query <> "" /\ nullish session = false /\
      req = query_request user query session).

(** The segment starts with the arrival of the body of a response from
    [url]. *)
Definition arrival_from (url : string) (tr : Trigger) : bool :=
  match json_arrival tr with
  | Some (resp, _) => String.eqb (resp_url resp) url
  | None => false
  end.

(** What a segment may touch: it leaves [userId] and the query box alone;
    the requests it sends are among [sent_ok]; it changes the chat display
    only when it starts with the body of a [/query] response; it only adds
    entries at the end of the tool container, and only when it starts with
    the body of the [/tools] response. *)
Definition Footprint (tr : Trigger) (w0 w : World) : Prop :=
  userId w = userId w0 /\
  query_input w = query_input w0 /\
  (exists evs,
      events w = (events w0 ++ evs)%list /\
      forall req, In (EvFetch req) evs -> sent_ok (userId w0) req) /\
  (arrival_from queryEndpoint tr = false ->
   chat_content_tmp w = chat_content_tmp w0) /\
  (exists extra,
      tool_container w = (tool_container w0 ++ extra)%list /\
      (arrival_from getToolListEndpoint tr = false -> extra = [])).

(** A page with a session and an empty query box. *)
Definition silent_world : World := set_query_input "" session_world.

(** The sample run just before and just after the first answer arrives. *)
Definition awaiting_answer : Sys :=
  after_run no_new_session
    [TypeQuery "hello"; ClickSendMessage; Deliver 0 (FetchReply (inr 200))]
    with_session.

Definition answer_shown : Sys :=
  after_run no_new_session
    [Deliver 0 (JsonReply (inr (JObj [("response", JStr "hi")])))]
    awaiting_answer.

(** Actions of the user only: nothing comes from the network. *)
Definition user_only (acts : list Action) : bool :=
  forallb (fun a => match a with
                    | Deliver _ _ => false
                    | _ => true
                    end) acts.

(** * Theorems *)

(** ** Segments and steps

    If every segment of the three handlers satisfies [G], then so does
    every step that a handler makes on the page, however the handlers
    interleave. *)

Section SegmentLemmas.

Variable G : Trigger -> World -> World -> Prop.

Lemma segments_task_ok (tr : Trigger) (w0 : World) (r : Run unit) :
  segments G tr w0 r -> task_ok G r.
Proof. destruct r as [c w | R io w k]; simpl; tauto. Qed.

Lemma segments_world (tr : Trigger) (w0 : World) (r : Run unit) :
  segments G tr w0 r -> G tr w0 (run_world r).
Proof. destruct r as [c w | R io w k]; simpl; tauto. Qed.

Lemma settle_ok (r : Run unit) (before after : list (Run unit)) :
  task_ok G r -> Forall (task_ok G) before -> Forall (task_ok G) after ->
  sys_ok G (settle r before after) /\
  landed (run_world r) (world (settle r before after)).
Proof.
  intros Hr Hb Ha. unfold sys_ok, landed.
  destruct r as [[[] | e] w | R io w k]; simpl; split;
    try (apply Forall_app; split; auto); eauto.
Qed.

Hypothesis load_G : forall w, segments G Started w (onDOMContentLoaded w).
Hypothesis create_G : forall w, segments G Started w (createSession w).
Hypothesis send_G : forall w, segments G Started w (sendQuery w).

Lemma boot_ok (p : Page) : sys_ok G (boot p).
Proof.
  unfold boot, spawn.
  apply settle_ok; [| constructor | constructor].
  eapply segments_task_ok, load_G.
Qed.

Lemma resume_segment (C : Contract) (rp : Reply) (task r : Run unit) (w : World) :
  task_ok G task -> resume C rp task w = Some r ->
  exists R (io : IO R) (ans : R) w0 k,
    task = Suspended R io w0 k /\ C R io ans = true /\
    r = k ans w /\ segments G (Resumed R io ans) w r /\
    match io in IO R0 return R0 -> Prop with
    | Fetch _ => fun ans => rp = FetchReply ans
    | ReadJson _ => fun ans => rp = JsonReply ans
    end ans.
Proof.
  intros Hok Hres.
  destruct task as [c w0 | R io w0 k]; simpl in *; [discriminate |].
  destruct io; destruct rp as [ans | ans]; try discriminate.
  - destruct (C _ (Fetch req) ans) eqn:HC; [| discriminate].
    injection Hres as <-. exists _, (Fetch req), ans, w0, k. auto 10.
  - destruct (C _ (ReadJson resp) ans) eqn:HC; [| discriminate].
    injection Hres as <-. exists _, (ReadJson resp), ans, w0, k. auto 10.
Qed.

(** One step of the page: the pending handlers stay well behaved, and the
    world moves by a user edit, not at all, or by one segment. *)
Theorem step_segment (C : Contract) (a : Action) (s s' : Sys) :
  sys_ok G s -> step C a s = Some s' ->
  sys_ok G s' /\
  ((exists i, a = ToggleCheckbox i /\
      world s' = set_tool_container (toggle i (tool_container (world s))) (world s)) \/
   (exists text, a = TypeQuery text /\
      world s' = set_query_input text (world s)) \/
   (trigger_of a s = None /\ world s' = world s) \/
   (exists tr w1, trigger_of a s = Some tr /\ allowed C tr = true /\
      G tr (world s) w1 /\ landed w1 (world s'))).
Proof.
  intros Hok Hstep.
  destruct a as [ | | i | text | i rp]; cbv beta iota delta [step] in Hstep.
  - injection Hstep as <-. simpl.
    destruct (createSessionBtn_click (world s)) eqn:Hl.
    + pose proof (create_G (world s)) as Hseg.
      destruct (settle_ok (createSession (world s)) (pending s) []) as [H1 H2];
        eauto using segments_task_ok.
      split; [exact H1 |]. right; right; right.
      exists Started, (run_world (createSession (world s))).
      auto using segments_world.
    + split; auto.
  - injection Hstep as <-. simpl.
    destruct (sendMessageBtn_click (world s)) eqn:Hl.
    + pose proof (send_G (world s)) as Hseg.
      destruct (settle_ok (sendQuery (world s)) (pending s) []) as [H1 H2];
        eauto using segments_task_ok.
      split; [exact H1 |]. right; right; right.
      exists Started, (run_world (sendQuery (world s))).
      auto using segments_world.
    + split; auto.
  - injection Hstep as <-. split; [exact Hok | eauto].
  - injection Hstep as <-. split; [exact Hok | eauto].
  - destruct (nth_error (pending s) i) as [task |] eqn:Hnth; [| discriminate].
    destruct (resume C rp task (world s)) as [r |] eqn:Hres; [| discriminate].
    injection Hstep as <-.
    destruct (nth_error_split _ _ Hnth) as (l1 & l2 & Hpend & Hlen).
    subst i.
    assert (Hall : Forall (task_ok G) l1 /\ Forall (task_ok G) (task :: l2)).
    { apply Forall_app. unfold sys_ok in Hok. rewrite Hpend in Hok. exact Hok. }
    destruct Hall as [Hl1 Hl2]. inversion Hl2 as [| ? ? Htask Hl2']; subst.
    destruct (resume_segment C rp task r (world s) Htask Hres)
      as (R & io & ans & w0 & k & -> & HC & -> & Hseg & Hrp).
    assert (Hf : firstn (length l1) (pending s) = l1).
    { rewrite Hpend. rewrite firstn_app, firstn_all, Nat.sub_diag. simpl.
      apply app_nil_r. }
    assert (Hs : skipn (S (length l1)) (pending s) = l2).
    { rewrite Hpend.
      change (S (length l1)) with (1 + length l1).
      rewrite <- skipn_skipn.
      rewrite skipn_app, skipn_all, Nat.sub_diag. reflexivity. }
    cbv beta iota delta [skipn] in Hs; fold (@skipn (Run unit)) in Hs.
    rewrite Hf, Hs.
    destruct (settle_ok (k ans (world s)) l1 l2) as [H1 H2];
      eauto using segments_task_ok.
    split; [exact H1 |]. right; right; right.
    exists (Resumed R io ans), (run_world (k ans (world s))).
    split; [| split; [exact HC | split; [apply segments_world; exact Hseg | exact H2]]].
    unfold trigger_of. rewrite Hnth. destruct io; rewrite Hrp; reflexivity.
Qed.

Theorem run_ok (C : Contract) (acts : list Action) (s s' : Sys) :
  sys_ok G s -> run C acts s = Some s' -> sys_ok G s'.
Proof.
  revert s. induction acts as [| a rest IH]; simpl; intros s Hok Hrun.
  - injection Hrun as <-. exact Hok.
  - destruct (step C a s) as [s1 |] eqn:Hstep; [| discriminate].
    apply (IH s1); [| exact Hrun].
    apply (step_segment C a s s1 Hok Hstep).
Qed.

End SegmentLemmas.

(** ** What every segment of the script does *)

#[local] Arguments String.append : simpl never.
#[local] Arguments ok_status : simpl never.
#[local] Arguments status_text : simpl never.

Lemma same_but_tools_refl (w : World) : same_but_tools w w.
Proof. unfold same_but_tools. tauto. Qed.

(** The callback either throws before it has attached anything, or
    attaches one entry. *)
Lemma appendTool_cases (tool : JsValue) (w : World) :
  (exists e, appendTool tool w = Finished (Throw e) w) \/
  (exists item,
      appendTool tool w =
        Finished (Normal tt)
          (set_tool_container (tool_container w ++ [item]) w)).
Proof.
  unfold appendTool, bind, lift, modify. cbn.
  repeat match goal with
         | |- context [match ?x with Normal _ => _ | Throw _ => _ end] =>
             destruct x; cbn
         end;
    eauto.
Qed.

Lemma appendTool_finished (tool : JsValue) (w : World) :
  exists c w', appendTool tool w = Finished c w' /\ same_but_tools w w'.
Proof.
  destruct (appendTool_cases tool w) as [[e ->] | [item ->]];
    eexists; eexists; (split; [reflexivity |]);
    unfold same_but_tools; cbn; tauto.
Qed.

Lemma each_appendTool_finished (items : list JsValue) (w : World) :
  exists c w', each appendTool items w = Finished c w' /\ same_but_tools w w'.
Proof.
  revert w. induction items as [| tool rest IH]; intro w.
  - exists (Normal tt), w. split; [reflexivity | apply same_but_tools_refl].
  - cbn [each]. unfold bind.
    destruct (appendTool_finished tool w) as (c & w1 & -> & H1).
    destruct c as [[] | e]; cbn.
    + destruct (IH w1) as (c2 & w2 & -> & H2).
      exists c2, w2. split; [reflexivity |].
      unfold same_but_tools in *. intuition congruence.
    + exists (Throw e), w1. auto.
Qed.

Lemma forEach_appendTool_finished (callee : string) (v : JsValue) (w : World) :
  exists c w', forEach callee v appendTool w = Finished c w' /\ same_but_tools w w'.
Proof.
  destruct v; cbn;
    try (eexists; eexists; split; [reflexivity | apply same_but_tools_refl]).
  apply each_appendTool_finished.
Qed.

Ltac events_grow :=
  cbn;
  first [ symmetry; apply app_nil_r
        | repeat rewrite <- app_assoc; reflexivity ].

Ltac no_query_request :=
  let req := fresh "req" in
  let Hin := fresh "Hin" in
  let Hurl := fresh "Hurl" in
  intros req Hin Hurl; cbn in Hin;
  repeat match goal with
         | H : _ \/ _ |- _ => destruct H
         | H : False |- _ => destruct H
         | H : EvFetch _ = EvFetch _ |- _ => injection H as <-
         | H : _ = EvFetch _ |- _ => discriminate H
         end;
  try discriminate Hurl.

Ltac unfold_js :=
  unfold fetch, response_json, alert, console_log, console_error,
    try_catch, bind, gets, modify, lift, await, ret, throw in *.

Ltac summary :=
  unfold Summary; cbn;
  split; [reflexivity |
  split; [eexists; split; [events_grow | no_query_request] |
          try reflexivity]].

Lemma sendQuery_segments (w : World) : segments Summary Started w (sendQuery w).
Proof.
  unfold sendQuery, callQuery. unfold_js. cbn.
  destruct (nullish (currentSessinId w)) eqn:Hn; cbn; [summary |].
  destruct (query_input w =? "") eqn:Hq; cbn; [summary |].
  destruct (to_string (currentSessinId w)) as [session_text | e]; cbn;
    [| summary].
  split.
  - summary.
    split; [exact Hn | split; [reflexivity |]].
    cbn. destruct (currentSessinId w); try discriminate Hn; reflexivity.
  - intros [e | status] w'; cbn; [summary |].
    destruct (response_ok _); cbn; [| summary].
    split; [summary |].
    intros [e | v] w''; cbn; [summary |].
    destruct (get_prop v "response") as [response | e]; cbn; [| summary].
    destruct (dom_string_nullable response); summary.
Qed.

Lemma createSession_segments (w : World) :
  segments Summary Started w (createSession w).
Proof.
  unfold createSession, getSelectedTools, callCreateSession. unfold_js. cbn.
  destruct (length _ =? 0)%nat; cbn; [summary |].
  split; [summary |].
  intros [e | status] w'; cbn; [summary |].
  destruct (response_ok _); cbn; [| summary].
  split; [summary |].
  intros [e | v] w''; cbn; [summary |].
  unfold session_after; destruct (get_prop v "session_id") eqn:Hsid; summary;
    cbn; rewrite Hsid; reflexivity.
Qed.

Lemma onDOMContentLoaded_segments (w : World) :
  segments Summary Started w (onDOMContentLoaded w).
Proof.
  unfold onDOMContentLoaded, initCheckbox, callGetToolList. unfold_js. cbn.
  split; [summary |].
  intros [e | status] w'; cbn; [summary |].
  destruct (response_ok _); cbn; [| summary].
  split; [summary |].
  intros [e | v] w''; cbn; [summary |].
  destruct (get_prop v "tools") as [tools | e]; cbn; [| summary].
  destruct (forEach_appendTool_finished "toolList.tools" tools (set_toolList v w''))
    as (c & w2 & -> & Hsame).
  unfold same_but_tools in Hsame. cbn in Hsame.
  destruct Hsame as (Hs & Hu & _ & _ & _ & _ & _ & _ & He).
  destruct c as [[] | e]; cbn; unfold Summary; cbn;
    (split; [exact Hu | split; [| exact Hs]]);
    exists []; (split; [rewrite He; symmetry; apply app_nil_r | no_query_request]).
Qed.

(** ** What every step of the page does *)

Lemma reachable_ok (C : Contract) (p : Page) (s : Sys) :
  reachable C p s -> sys_ok Summary s.
Proof.
  intros [acts Hrun].
  apply (run_ok Summary createSession_segments sendQuery_segments C acts (boot p) s);
    [| exact Hrun].
  apply boot_ok, onDOMContentLoaded_segments.
Qed.

Lemma landed_summary (tr : Trigger) (w0 w1 w' : World) :
  Summary tr w0 w1 -> landed w1 w' -> Summary tr w0 w'.
Proof.
  intros HS [-> | [e ->]]; [exact HS |].
  destruct HS as (Hu & (evs & Hev & Hq) & Hs).
  unfold Summary. cbn. split; [exact Hu | split; [| exact Hs]].
  exists (evs ++ [EvUnhandledRejection e])%list. split.
  - rewrite Hev. symmetry. apply app_assoc.
  - intros req Hin Hurl. apply Hq; [| exact Hurl].
    apply in_app_or in Hin. destruct Hin as [Hin | [Hin | []]];
      [exact Hin | discriminate Hin].
Qed.

(** A step leaves [userId] alone and only adds events; a [/query] request
    among them was sent while a session id was held and carries it; the
    session id moves as [session_after_action] says; and the answer that
    was delivered, if any, is one the contract allows. *)
Theorem step_effect (C : Contract) (a : Action) (s s' : Sys) :
  sys_ok Summary s -> step C a s = Some s' ->
  sys_ok Summary s' /\
  allowed_action C a s = true /\
  userId (world s') = userId (world s) /\
  (exists evs,
      events (world s') = (events (world s) ++ evs)%list /\
      forall req, In (EvFetch req) evs -> req_url req = queryEndpoint ->
        nullish (currentSessinId (world s)) = false /\
        currentSessinId (world s') = currentSessinId (world s) /\
        req_body req =
          Some (query_body (userId (world s)) (query_input (world s))
                  (json_stringify (currentSessinId (world s))))) /\
  currentSessinId (world s') =
    session_after_action a s (currentSessinId (world s)).
Proof.
  intros Hok Hstep.
  destruct (step_segment Summary createSession_segments sendQuery_segments
              C a s s' Hok Hstep) as [Hok' Hcases].
  split; [exact Hok' |].
  unfold session_after_action, allowed_action.
  destruct Hcases as [(i & -> & ->) | [(text & -> & ->) | [[-> ->] | Hseg]]].
  - cbn. repeat split. exists []. split; [symmetry; apply app_nil_r |].
    intros req [].
  - cbn. repeat split. exists []. split; [symmetry; apply app_nil_r |].
    intros req [].
  - repeat split. exists []. split; [symmetry; apply app_nil_r |].
    intros req [].
  - destruct Hseg as (tr & w1 & -> & Hadm & HS & Hland).
    split; [exact Hadm |].
    exact (landed_summary tr (world s) w1 (world s') HS Hland).
Qed.


Lemma session_after_quiet (tr : Trigger) (old : JsValue) :
  allowed no_new_session tr = true -> session_after tr old = old.
Proof.
  intros Hadm. unfold session_after.
  destruct tr as [| R io ans]; [reflexivity |].
  destruct io as [req | resp]; [reflexivity |].
  destruct ans as [e | v]; [reflexivity |].
  cbn in *.
  destruct (String.eqb (resp_url resp) createSessionEndpoint);
    [discriminate Hadm | reflexivity].
Qed.

Lemma boot_userId (p : Page) : userId (world (boot p)) = "default_user".
Proof. reflexivity. Qed.

Lemma run_userId (C : Contract) (acts : list Action) (s s' : Sys) :
  sys_ok Summary s -> run C acts s = Some s' ->
  sys_ok Summary s' /\ userId (world s') = userId (world s).
Proof.
  revert s. induction acts as [| a rest IH]; cbn [run]; intros s Hok Hrun.
  - injection Hrun as <-. auto.
  - destruct (step C a s) as [s1 |] eqn:Hstep; [| discriminate].
    destruct (step_effect C a s s1 Hok Hstep) as (Hok1 & _ & Hu & _).
    destruct (IH s1 Hok1 Hrun) as [Hok' Hu'].
    split; [exact Hok' | congruence].
Qed.

Lemma reachable_userId (C : Contract) (p : Page) (s : Sys) :
  reachable C p s -> userId (world s) = "default_user".
Proof.
  intros [acts Hrun].
  destruct (run_userId C acts (boot p) s) as [_ Hu]; [| exact Hrun |].
  - apply boot_ok, onDOMContentLoaded_segments.
  - rewrite Hu. apply boot_userId.
Qed.

(** While no creation succeeds the stored id stays what it is. *)
Lemma run_quiet (acts : list Action) (s s' : Sys) :
  sys_ok Summary s -> run no_new_session acts s = Some s' ->
  currentSessinId (world s') = currentSessinId (world s).
Proof.
  revert s. induction acts as [| a rest IH]; cbn [run]; intros s Hok Hrun.
  - injection Hrun as <-. reflexivity.
  - destruct (step no_new_session a s) as [s1 |] eqn:Hstep; [| discriminate].
    destruct (step_effect _ a s s1 Hok Hstep) as (Hok1 & Hadm & _ & _ & Hs).
    rewrite (IH s1 Hok1 Hrun), Hs.
    unfold session_after_action, allowed_action in *.
    destruct (trigger_of a s) as [tr |]; [| reflexivity].
    apply session_after_quiet, Hadm.
Qed.


Lemma skipn_app_exact {A} (l evs : list A) : skipn (length l) (l ++ evs) = evs.
Proof.
  rewrite skipn_app, skipn_all, Nat.sub_diag. reflexivity.
Qed.

Lemma delivered_body_trigger (C : Contract) (url : string) (i : nat)
    (body : JsValue) (s s' : Sys) :
  awaits_body_from url i s = true ->
  step C (Deliver i (JsonReply (inr body))) s = Some s' ->
  exists resp,
    trigger_of (Deliver i (JsonReply (inr body))) s =
      Some (Resumed _ (ReadJson resp) (inr body)) /\
    resp_url resp = url.
Proof.
  unfold awaits_body_from, trigger_of. intros Haw _.
  destruct (nth_error (pending s) i) as [[c w | R io w k] |]; try discriminate Haw.
  destruct io as [req | resp]; [discriminate Haw |].
  exists resp. split; [reflexivity | apply String.eqb_eq, Haw].
Qed.

(** ** The session id carried by queries *)

(** C1. In every run of the page in which a session creation succeeds with
    a body whose [session_id] is ["abc123"] (in particular the body
    [{session_id: "abc123"}] answering a creation for the ticked tools
    [["search"]]), the user id is ["default_user"] and, as long as no later
    creation succeeds, every step that sends a [/query] request sends it
    with the body [{user_id: "default_user", query: <the text of the query
    box>, session_id: "abc123"}]. *)
Theorem query_carries_created_session
    (p : Page) (before : list Action) (s0 : Sys)
    (i : nat) (body : JsValue) (s1 : Sys)
    (after : list Action) (s2 : Sys)
    (a : Action) (s3 : Sys) (req : Request)
    (Hreach : run any_reply before (boot p) = Some s0)
    (Hawait : awaits_body_from createSessionEndpoint i s0 = true)
    (Hbody : get_prop body "session_id" = Normal (JStr "abc123"))
    (Hcreated : step any_reply (Deliver i (JsonReply (inr body))) s0 = Some s1)
    (Hafter : run no_new_session after s1 = Some s2)
    (Hstep : step no_new_session a s2 = Some s3)
    (Hsent : In (EvFetch req)
               (skipn (length (events (world s2))) (events (world s3))))
    (Hurl : req_url req = queryEndpoint) :
  userId (world s2) = "default_user" /\
  currentSessinId (world s2) = JStr "abc123" /\
  req_body req =
    Some (query_body "default_user" (query_input (world s2)) (JStr "abc123")).
Proof.
  assert (Hok0 : sys_ok Summary s0)
    by (apply (reachable_ok any_reply p); exists before; exact Hreach).
  assert (Hu0 : userId (world s0) = "default_user")
    by (apply (reachable_userId any_reply p); exists before; exact Hreach).
  destruct (step_effect _ _ s0 s1 Hok0 Hcreated) as (Hok1 & _ & Hu1 & _ & Hs1).
  destruct (delivered_body_trigger _ _ _ _ _ _ Hawait Hcreated)
    as (resp & Htr & Hresp).
  unfold session_after_action in Hs1. rewrite Htr in Hs1.
  unfold session_after in Hs1. cbn in Hs1.
  rewrite Hresp, Hbody in Hs1. cbn in Hs1.
  destruct (run_userId _ after s1 s2 Hok1 Hafter) as [Hok2 Hu2].
  pose proof (run_quiet after s1 s2 Hok1 Hafter) as Hs2.
  assert (Huser : userId (world s2) = "default_user") by congruence.
  assert (Hsession : currentSessinId (world s2) = JStr "abc123") by congruence.
  split; [exact Huser | split; [exact Hsession |]].
  destruct (step_effect _ a s2 s3 Hok2 Hstep) as (_ & _ & _ & (evs & Hev & Hq) & _).
  rewrite Hev, skipn_app_exact in Hsent.
  destruct (Hq req Hsent Hurl) as (_ & _ & Hb).
  rewrite Hb, Huser, Hsession. reflexivity.
Qed.

(** ** Queries need a session *)


(** ** The session state machine *)


(** ** Validation on the client *)

(** C2 (as amended). Whenever [sendQuery] runs while the stored session id
    is [null] (or [undefined]), the user is warned with an alert and the
    handler returns at once: it pauses on no request, and the alert is the
    only event it adds; nothing else in the world changes. *)
Theorem sendQuery_without_session_only_warns (w : World)
    (Hnull : nullish (currentSessinId w) = true) :
  sendQuery w = Finished (Normal tt) (emit (EvAlert no_session_warning) w) /\
  awaited_request (sendQuery w) = None.
Proof.
  unfold sendQuery. unfold_js. cbn. rewrite Hnull. cbn. split; reflexivity.
Qed.

Lemma sendQuery_without_session_only_warns_witness :
  sendQuery fresh_world =
    Finished (Normal tt) (emit (EvAlert no_session_warning) fresh_world) /\
  awaited_request (sendQuery fresh_world) = None.
Proof.
  apply (sendQuery_without_session_only_warns fresh_world). reflexivity.
Defined.

(** The statement that a query still goes out with [session_id: null] is
    false of the script: on a page whose stored session id is [null] and
    whose query box holds ["hello"], [sendQuery] warns and sends no request
    at all. *)
Lemma sendQuery_null_session_sends_nothing :
  currentSessinId fresh_world = JNull /\
  query_input fresh_world = "hello" /\
  events (run_world (sendQuery fresh_world)) = [EvAlert no_session_warning] /\
  ~ (exists req, awaited_request (sendQuery fresh_world) = Some req) /\
  ~ (exists req, In (EvFetch req) (events (run_world (sendQuery fresh_world)))).
Proof.
  repeat split.
  - intros [req H]. discriminate H.
  - intros [req [H | []]]. discriminate H.
Qed.

(** C7. Whenever [createSession] runs while no tool checkbox is ticked,
    the user is warned with an alert and the handler returns at once: it
    pauses on no request, the only events are the log of the empty
    selection and the alert, and the stored session id is what it was. *)
Theorem createSession_empty_selection_only_warns (w : World)
    (Hempty : selected_tools w = []) :
  createSession w =
    Finished (Normal tt)
      (emit (EvAlert no_tool_warning) (emit (EvLog (JArr [])) w)) /\
  awaited_request (createSession w) = None /\
  currentSessinId (run_world (createSession w)) = currentSessinId w.
Proof.
  unfold createSession, getSelectedTools. unfold_js. cbn.
  unfold selected_tools in Hempty. rewrite Hempty. cbn.
  repeat split.
Qed.

Lemma createSession_empty_selection_only_warns_witness :
  createSession fresh_world =
    Finished (Normal tt)
      (emit (EvAlert no_tool_warning) (emit (EvLog (JArr [])) fresh_world)) /\
  awaited_request (createSession fresh_world) = None /\
  currentSessinId (run_world (createSession fresh_world)) =
    currentSessinId fresh_world.
Proof.
  apply (createSession_empty_selection_only_warns fresh_world). reflexivity.
Defined.

(** ** Responses without an ok status *)

(** C4. Whenever the catalog fetch, a session creation or a query has sent
    its request and the response comes with a status outside 200-299, the
    handler logs the error ["HTTP error! Status: <status>"] and stops (by a
    [TypeError] on the [undefined] the call returned) with the stored
    session id, the text of the chat display and the tool container as they
    were when the response came; nor had sending the request changed the
    session id or the chat display. *)
Theorem non_2xx_leaves_state_unchanged
    (op : Operation) (w : World) (req : Request) (status : nat) (w1 : World)
    (Hsent : awaited_request (handler op w) = Some req)
    (Hstatus : ok_status status = false) :
  (exists e w',
      drive [(FetchReply (inr status), w1)] (handler op w) = Finished (Throw e) w' /\
      err_name e = "TypeError" /\
      events w' = (events w1 ++ [EvError (http_error_message status)])%list /\
      currentSessinId w' = currentSessinId w1 /\
      chat_content_tmp w' = chat_content_tmp w1 /\
      tool_container w' = tool_container w1) /\
  currentSessinId (run_world (handler op w)) = currentSessinId w /\
  chat_content_tmp (run_world (handler op w)) = chat_content_tmp w.
Proof.
  destruct op; unfold handler in *.
  - unfold initCheckbox, callGetToolList in *. unfold_js. cbn in *.
    unfold response_ok. cbn. rewrite Hstatus. cbn.
    split; [| split; reflexivity].
    eexists. eexists. split; [reflexivity |]. cbn. repeat split.
  - unfold createSession, getSelectedTools, callCreateSession in *. unfold_js.
    cbn in *.
    destruct (length _ =? 0)%nat; cbn in *; [discriminate Hsent |].
    unfold response_ok. cbn. rewrite Hstatus. cbn.
    split; [| split; reflexivity].
    eexists. eexists. split; [reflexivity |]. cbn. repeat split.
  - unfold sendQuery, callQuery in *. unfold_js. cbn in *.
    destruct (nullish (currentSessinId w)); cbn in *; [discriminate Hsent |].
    destruct (query_input w =? ""); cbn in *; [discriminate Hsent |].
    destruct (to_string (currentSessinId w)); cbn in *; [| discriminate Hsent].
    unfold response_ok. cbn. rewrite Hstatus. cbn.
    split; [| split; reflexivity].
    eexists. eexists. split; [reflexivity |]. cbn. repeat split.
Qed.

Lemma non_2xx_leaves_state_unchanged_witness :
  (exists e w',
      drive [(FetchReply (inr 500), run_world (createSession ready_world))]
        (handler SessionCreation ready_world) = Finished (Throw e) w' /\
      err_name e = "TypeError" /\
      events w' =
        (events (run_world (createSession ready_world)) ++
         [EvError (http_error_message 500)])%list /\
      currentSessinId w' = currentSessinId (run_world (createSession ready_world)) /\
      chat_content_tmp w' = chat_content_tmp (run_world (createSession ready_world)) /\
      tool_container w' = tool_container (run_world (createSession ready_world))) /\
  currentSessinId (run_world (handler SessionCreation ready_world)) =
    currentSessinId ready_world /\
  chat_content_tmp (run_world (handler SessionCreation ready_world)) =
    chat_content_tmp ready_world.
Proof.
  apply (non_2xx_leaves_state_unchanged SessionCreation ready_world
           (mkRequest createSessionEndpoint "POST" json_headers
              (Some (JObj [("user_id", JStr "default_user");
                           ("tool_names", JArr [JStr "search"])])))
           500 (run_world (createSession ready_world)));
    reflexivity.
Defined.

(** ** Rendering the catalog *)

Lemma each_appendTool_catalog (tools : list Tool) (w : World) :
  each appendTool (map tool_json tools) w =
    Finished (Normal tt)
      (set_tool_container (tool_container w ++ map checklist_entry tools) w).
Proof.
  revert w. induction tools as [| t rest IH]; intro w.
  - cbn. rewrite app_nil_r. destruct w; reflexivity.
  - cbn [map each]. unfold bind. cbn. rewrite IH. cbn.
    rewrite <- app_assoc. reflexivity.
Qed.

(** C6. When the catalog fetch succeeds with the tools [t_1 ... t_N]
    (N >= 0), [initCheckbox] appends to the tool container exactly the N
    checklist entries of [t_1 ... t_N], in that order, after whatever the
    container held when the catalog arrived. *)
Theorem initCheckbox_renders_catalog
    (w : World) (status : nat) (w1 : World) (tools : list Tool) (w2 : World)
    (Hstatus : ok_status status = true) :
  drive [(FetchReply (inr status), w1); (JsonReply (inr (catalog_json tools)), w2)]
    (initCheckbox w) =
    Finished (Normal tt)
      (set_tool_container (tool_container w2 ++ map checklist_entry tools)
         (set_toolList (catalog_json tools) w2)) /\
  length (map checklist_entry tools) = length tools.
Proof.
  split; [| apply length_map].
  unfold initCheckbox, callGetToolList. unfold_js. cbn.
  unfold response_ok. cbn. rewrite Hstatus. cbn.
  rewrite each_appendTool_catalog. reflexivity.
Qed.

Lemma initCheckbox_renders_catalog_witness :
  drive [(FetchReply (inr 200), fresh_world);
         (JsonReply (inr (catalog_json [mkTool "search" "Web search";
                                        mkTool "calc" "Calculator"])),
          fresh_world)]
    (initCheckbox fresh_world) =
    Finished (Normal tt)
      (set_tool_container
         (tool_container fresh_world ++
          map checklist_entry [mkTool "search" "Web search";
                               mkTool "calc" "Calculator"])
         (set_toolList (catalog_json [mkTool "search" "Web search";
                                      mkTool "calc" "Calculator"])
            fresh_world)) /\
  length (map checklist_entry [mkTool "search" "Web search";
                               mkTool "calc" "Calculator"]) =
    length [mkTool "search" "Web search"; mkTool "calc" "Calculator"].
Proof.
  apply (initCheckbox_renders_catalog fresh_world 200 fresh_world
           [mkTool "search" "Web search"; mkTool "calc" "Calculator"]
           fresh_world).
  reflexivity.
Defined.

(** ** Displaying the answer *)

(** C8. Whenever [sendQuery] has sent its request, the response has an ok
    status and its body has the string [r] as [response] (in particular
    the body [{response: r}]), the handler returns with the text of the
    chat display set to exactly [r], whatever it showed when the body
    came; the body is kept in [result] and nothing else changes. *)
Theorem sendQuery_replaces_chat_display
    (w : World) (req : Request) (status : nat) (w1 : World)
    (body : JsValue) (r : string) (w2 : World)
    (Hsent : awaited_request (sendQuery w) = Some req)
    (Hstatus : ok_status status = true)
    (Hbody : get_prop body "response" = Normal (JStr r)) :
  drive [(FetchReply (inr status), w1); (JsonReply (inr body), w2)] (sendQuery w) =
    Finished (Normal tt) (set_chat_content_tmp r (set_result body w2)) /\
  chat_content_tmp (set_chat_content_tmp r (set_result body w2)) = r.
Proof.
  split; [| reflexivity].
  unfold sendQuery, callQuery in *. unfold_js. cbn in *.
  destruct (nullish (currentSessinId w)); cbn in *; [discriminate Hsent |].
  destruct (query_input w =? ""); cbn in *; [discriminate Hsent |].
  destruct (to_string (currentSessinId w)); cbn in *; [| discriminate Hsent].
  unfold response_ok. cbn. rewrite Hstatus. cbn. rewrite Hbody. reflexivity.
Qed.

Lemma sendQuery_replaces_chat_display_witness :
  drive [(FetchReply (inr 200), run_world (sendQuery session_world));
         (JsonReply (inr (JObj [("response", JStr "hello")])),
          set_chat_content_tmp "an earlier answer" (run_world (sendQuery session_world)))]
    (sendQuery session_world) =
    Finished (Normal tt)
      (set_chat_content_tmp "hello"
         (set_result (JObj [("response", JStr "hello")])
            (set_chat_content_tmp "an earlier answer"
               (run_world (sendQuery session_world))))) /\
  chat_content_tmp
    (set_chat_content_tmp "hello"
       (set_result (JObj [("response", JStr "hello")])
          (set_chat_content_tmp "an earlier answer"
             (run_world (sendQuery session_world))))) = "hello".
Proof.
  apply (sendQuery_replaces_chat_display session_world
           (mkRequest queryEndpoint "POST" json_headers
              (Some (query_body "default_user" "hello" (JStr "abc123"))))
           200 (run_world (sendQuery session_world))
           (JObj [("response", JStr "hello")]) "hello"
           (set_chat_content_tmp "an earlier answer"
              (run_world (sendQuery session_world))));
    reflexivity.
Defined.

(** ** Failed calls *)

(** C10. Whenever one of [callGetToolList], [callCreateSession] and
    [callQuery] fails (the request rejects, the status is not ok, or the
    body cannot be read), the call logs the error's message with
    [console.error] and returns [undefined]: it does not throw. *)
Theorem failed_call_returns_undefined
    (c : Call) (w : World) (arrivals : list (Reply * World))
    (message : string) (w' : World)
    (Hfail : failure arrivals = Some (message, w')) :
  drive arrivals (call c w) =
    Finished (Normal JUndefined) (emit (EvError message) w').
Proof.
  unfold failure in Hfail.
  destruct arrivals as [| [[[e | status] | [e | v]] w1] rest]; try discriminate Hfail.
  - destruct rest; [| discriminate Hfail]. injection Hfail as <- <-.
    destruct c; reflexivity.
  - destruct rest as [| [[ans | [e | v]] w2] rest].
    + destruct (ok_status status) eqn:Hstatus; [discriminate Hfail |].
      injection Hfail as <- <-.
      destruct c; unfold call, callGetToolList, callCreateSession, callQuery;
        unfold_js; cbn; unfold response_ok; cbn; rewrite Hstatus; reflexivity.
    + discriminate Hfail.
    + destruct rest; [| discriminate Hfail].
      destruct (ok_status status) eqn:Hstatus; [| discriminate Hfail].
      injection Hfail as <- <-.
      destruct c; unfold call, callGetToolList, callCreateSession, callQuery;
        unfold_js; cbn; unfold response_ok; cbn; rewrite Hstatus; reflexivity.
    + discriminate Hfail.
Qed.

Lemma failed_call_returns_undefined_witness :
  drive [(FetchReply (inr 404), run_world (call (QueryCall "hello") session_world))]
    (call (QueryCall "hello") session_world) =
    Finished (Normal JUndefined)
      (emit (EvError (http_error_message 404))
         (run_world (call (QueryCall "hello") session_world))).
Proof.
  apply (failed_call_returns_undefined (QueryCall "hello") session_world
           [(FetchReply (inr 404), run_world (call (QueryCall "hello") session_world))]).
  reflexivity.
Defined.

(** ** Failures that escape the handlers *)

(** C5 fails on the code.  A response with status 500 makes each of the
    three handlers throw a [TypeError] when it reads a property of the
    [undefined] that the failed call returned.  On the page the error
    surfaces as an unhandled rejection; when it is the catalog fetch that
    fails, the two buttons never get their click listeners. *)
Theorem failed_call_makes_handler_throw :
  drive [(FetchReply (inr 500), run_world (createSession ready_world))]
    (createSession ready_world) =
    Finished (Throw (TypeError_read JUndefined "session_id"))
      (emit (EvError "HTTP error! Status: 500")
         (run_world (createSession ready_world))) /\
  drive [(FetchReply (inr 500), run_world (sendQuery session_world))]
    (sendQuery session_world) =
    Finished (Throw (TypeError_read JUndefined "response"))
      (set_result JUndefined
         (emit (EvError "HTTP error! Status: 500")
            (run_world (sendQuery session_world)))) /\
  drive [(FetchReply (inr 500), run_world (initCheckbox fresh_world))]
    (initCheckbox fresh_world) =
    Finished (Throw (TypeError_read JUndefined "tools"))
      (set_toolList JUndefined
         (emit (EvError "HTTP error! Status: 500")
            (run_world (initCheckbox fresh_world)))) /\
  run any_reply [Deliver 0 (FetchReply (inr 500))] (boot blank_page) =
    Some (mkSys
            (mkWorld JNull "default_user" JUndefined JUndefined [] "" "" false false
               [EvFetch (mkRequest getToolListEndpoint "GET" [] None);
                EvError "HTTP error! Status: 500";
                EvUnhandledRejection (TypeError_read JUndefined "tools")])
            []) /\
  events (world (after_run any_reply
                   (load_page ++ [ToggleCheckbox 0; ClickCreateSession;
                                  Deliver 0 (FetchReply (inr 500))])
                   (boot blank_page))) =
    [EvFetch (mkRequest getToolListEndpoint "GET" [] None);
     EvLog (JArr [JStr "search"]);
     EvFetch (mkRequest createSessionEndpoint "POST" json_headers
                (Some (JObj [("user_id", JStr "default_user");
                             ("tool_names", JArr [JStr "search"])])));
     EvError "HTTP error! Status: 500";
     EvUnhandledRejection (TypeError_read JUndefined "session_id")].
Proof.
  repeat split.
Qed.

(** ** The sample run *)

Lemma query_carries_created_session_witness :
  userId (world after_first_exchange) = "default_user" /\
  currentSessinId (world after_first_exchange) = JStr "abc123" /\
  req_body second_query =
    Some (query_body "default_user" (query_input (world after_first_exchange))
            (JStr "abc123")).
Proof.
  apply (query_carries_created_session blank_page until_creation_body
           awaiting_session 0 creation_body with_session first_exchange
           after_first_exchange ClickSendMessage second_query_sent second_query);
    try (vm_compute; reflexivity).
  vm_compute. auto.
Defined.




(** Outside the endpoint contract the stored id can be lost: a creation
    answered with status 200 and the body [{}] stores [undefined]. *)
Example session_lost_when_body_has_no_id :
  currentSessinId (world with_session) = JStr "abc123" /\
  currentSessinId
    (world (after_run any_reply
              [ClickCreateSession; Deliver 0 (FetchReply (inr 200));
               Deliver 0 (JsonReply (inr (JObj [])))]
              with_session)) = JUndefined.
Proof. split; vm_compute; reflexivity. Qed.

(** * Further properties of the script *)

(** ** Validation of the query text *)

(** X1. With a session held and an empty query box, [sendQuery] warns that
    nothing was typed and returns at once: no request, no other change. *)
Theorem sendQuery_empty_query_only_warns (w : World)
    (Hheld : nullish (currentSessinId w) = false)
    (Hempty : query_input w = "") :
  sendQuery w = Finished (Normal tt) (emit (EvAlert empty_query_warning) w) /\
  awaited_request (sendQuery w) = None.
Proof.
  unfold sendQuery. unfold_js. cbn. rewrite Hheld. cbn. rewrite Hempty. cbn.
  split; reflexivity.
Qed.

Lemma sendQuery_empty_query_only_warns_witness :
  sendQuery silent_world =
    Finished (Normal tt) (emit (EvAlert empty_query_warning) silent_world) /\
  awaited_request (sendQuery silent_world) = None.
Proof.
  apply (sendQuery_empty_query_only_warns silent_world); reflexivity.
Defined.

(** ** Creating a session *)

Lemma stringify_names (names : list string) :
  map (fun x => match x with
                | JUndefined => JNull
                | _ => json_stringify x
                end) (map JStr names) = map JStr names.
Proof.
  induction names as [| n rest IH]; cbn; [reflexivity | rewrite IH; reflexivity].
Qed.

Lemma selection_not_empty (l : list string) :
  l <> [] -> (length l =? 0)%nat = false.
Proof. destruct l; [intros H; destruct (H eq_refl) | reflexivity]. Qed.

(** X2. With at least one checkbox ticked, [createSession] logs the
    selection, sends [POST /sessions/create] as JSON with the body
    [{user_id, tool_names}], where [tool_names] are the values of the
    ticked checkboxes in document order, and waits for the response; the
    stored session id is not touched yet. *)
Theorem createSession_sends_selection (w : World)
    (Hsel : selected_tools w <> []) :
  awaited_request (createSession w) =
    Some (creation_request (userId w) (selected_tools w)) /\
  run_world (createSession w) =
    emit (EvFetch (creation_request (userId w) (selected_tools w)))
      (emit (EvLog (JArr (map JStr (selected_tools w)))) w).
Proof.
  unfold createSession, getSelectedTools, callCreateSession. unfold_js. cbn.
  fold (selected_tools w).
  rewrite (selection_not_empty _ Hsel). cbn.
  rewrite stringify_names. split; reflexivity.
Qed.

Lemma createSession_sends_selection_witness :
  awaited_request (createSession ready_world) =
    Some (creation_request (userId ready_world) (selected_tools ready_world)) /\
  run_world (createSession ready_world) =
    emit (EvFetch (creation_request (userId ready_world)
                     (selected_tools ready_world)))
      (emit (EvLog (JArr (map JStr (selected_tools ready_world)))) ready_world).
Proof.
  apply (createSession_sends_selection ready_world).
  intro H. discriminate H.
Defined.

(** X3. When the response to a creation is ok and its body is not [null],
    [createSession] stores the body's [session_id] over whatever id is
    stored when the body arrives (also one that a creation started later
    has stored in the meantime) and changes nothing else. *)
Theorem createSession_overwrites_session_id
    (w : World) (req : Request) (status : nat) (w1 : World)
    (body session_id : JsValue) (w2 : World)
    (Hsent : awaited_request (createSession w) = Some req)
    (Hstatus : ok_status status = true)
    (Hbody : get_prop body "session_id" = Normal session_id) :
  drive [(FetchReply (inr status), w1); (JsonReply (inr body), w2)]
    (createSession w) =
    Finished (Normal tt) (set_currentSessinId session_id w2).
Proof.
  unfold createSession, getSelectedTools, callCreateSession in *. unfold_js.
  cbn in *.
  destruct (length _ =? 0)%nat; cbn in *; [discriminate Hsent |].
  unfold response_ok. cbn. rewrite Hstatus. cbn. rewrite Hbody. reflexivity.
Qed.

Lemma createSession_overwrites_session_id_witness :
  drive [(FetchReply (inr 201), run_world (createSession ready_world));
         (JsonReply (inr (JObj [("session_id", JStr "s2")])), session_world)]
    (createSession ready_world) =
    Finished (Normal tt) (set_currentSessinId (JStr "s2") session_world).
Proof.
  apply (createSession_overwrites_session_id ready_world
           (creation_request "default_user" ["search"]) 201
           (run_world (createSession ready_world))
           (JObj [("session_id", JStr "s2")]) (JStr "s2") session_world);
    reflexivity.
Defined.

(** X4. When the response to a creation is ok but its body has no
    [session_id] (or a [null] one), the stored id becomes [undefined] (or
    [null]): the session held before is gone, and a [sendQuery] that
    follows only warns that no session was started. *)
Theorem creation_without_id_drops_session
    (w : World) (req : Request) (status : nat) (w1 : World)
    (body session_id : JsValue) (w2 : World)
    (Hsent : awaited_request (createSession w) = Some req)
    (Hstatus : ok_status status = true)
    (Hbody : get_prop body "session_id" = Normal session_id)
    (Hnone : nullish session_id = true) :
  drive [(FetchReply (inr status), w1); (JsonReply (inr body), w2)]
    (createSession w) =
    Finished (Normal tt) (set_currentSessinId session_id w2) /\
  sendQuery (set_currentSessinId session_id w2) =
    Finished (Normal tt)
      (emit (EvAlert no_session_warning) (set_currentSessinId session_id w2)).
Proof.
  split.
  - unfold createSession, getSelectedTools, callCreateSession in *. unfold_js.
    cbn in *.
    destruct (length _ =? 0)%nat; cbn in *; [discriminate Hsent |].
    unfold response_ok. cbn. rewrite Hstatus. cbn. rewrite Hbody. reflexivity.
  - unfold sendQuery. unfold_js. cbn. rewrite Hnone. reflexivity.
Qed.

Lemma creation_without_id_drops_session_witness :
  drive [(FetchReply (inr 200), run_world (createSession session_world));
         (JsonReply (inr (JObj [])), run_world (createSession session_world))]
    (createSession session_world) =
    Finished (Normal tt)
      (set_currentSessinId JUndefined (run_world (createSession session_world))) /\
  sendQuery (set_currentSessinId JUndefined
               (run_world (createSession session_world))) =
    Finished (Normal tt)
      (emit (EvAlert no_session_warning)
         (set_currentSessinId JUndefined
            (run_world (createSession session_world)))).
Proof.
  apply (creation_without_id_drops_session session_world
           (creation_request "default_user" ["search"]) 200
           (run_world (createSession session_world))
           (JObj []) JUndefined (run_world (createSession session_world)));
    reflexivity.
Defined.

(** ** The call functions and their callers *)

(** X5. When the response is ok and its body is read, each of the three
    call functions returns the parsed body as it is and logs nothing. *)
Theorem successful_call_returns_body
    (c : Call) (w : World) (status : nat) (w1 : World)
    (body : JsValue) (w2 : World)
    (Hstatus : ok_status status = true) :
  drive [(FetchReply (inr status), w1); (JsonReply (inr body), w2)] (call c w) =
    Finished (Normal body) w2.
Proof.
  destruct c; unfold call, callGetToolList, callCreateSession, callQuery;
    unfold_js; cbn; unfold response_ok; cbn; rewrite Hstatus; reflexivity.
Qed.

Lemma successful_call_returns_body_witness :
  drive [(FetchReply (inr 200), fresh_world);
         (JsonReply (inr (JObj [("response", JStr "hi")])), fresh_world)]
    (call (QueryCall "hello") session_world) =
    Finished (Normal (JObj [("response", JStr "hi")])) fresh_world.
Proof.
  apply (successful_call_returns_body (QueryCall "hello") session_world 200
           fresh_world (JObj [("response", JStr "hi")]) fresh_world).
  reflexivity.
Defined.

(** X6. Whichever way the call of a handler fails (the request rejects, the
    status is not ok, the body cannot be read), the handler logs the
    message of the error and then throws a [TypeError]; the stored session
    id, the chat display and the tool container are as they were when the
    failure came. *)
Theorem failed_call_leaves_state_unchanged
    (op : Operation) (w : World) (req : Request)
    (arrivals : list (Reply * World)) (message : string) (w' : World)
    (Hsent : awaited_request (handler op w) = Some req)
    (Hfail : failure arrivals = Some (message, w')) :
  exists e wf,
    drive arrivals (handler op w) = Finished (Throw e) wf /\
    err_name e = "TypeError" /\
    events wf = (events w' ++ [EvError message])%list /\
    currentSessinId wf = currentSessinId w' /\
    chat_content_tmp wf = chat_content_tmp w' /\
    tool_container wf = tool_container w'.
Proof.
  assert (Hshape :
    (exists e, arrivals = [(FetchReply (inl e), w')] /\ message = err_message e) \/
    (exists status, arrivals = [(FetchReply (inr status), w')] /\
       ok_status status = false /\ message = http_error_message status) \/
    (exists status w1 e,
       arrivals = [(FetchReply (inr status), w1); (JsonReply (inl e), w')] /\
       ok_status status = true /\ message = err_message e)).
  { unfold failure in Hfail.
    destruct arrivals as [| [[[e | status] | [e | v]] w1] rest];
      try discriminate Hfail.
    - destruct rest; [| discriminate Hfail]. injection Hfail as <- <-. eauto.
    - destruct rest as [| [[ans | [e | v]] w2] rest].
      + destruct (ok_status status) eqn:Hstatus; [discriminate Hfail |].
        injection Hfail as <- <-. right; left. eauto.
      + discriminate Hfail.
      + destruct rest; [| discriminate Hfail].
        destruct (ok_status status) eqn:Hstatus; [| discriminate Hfail].
        injection Hfail as <- <-. right; right. eauto 10.
      + discriminate Hfail. }
  destruct Hshape as [(e & -> & ->) | [(status & -> & Hst & ->) |
                      (status & w1 & e & -> & Hst & ->)]];
    destruct op; unfold handler in *;
    unfold initCheckbox, callGetToolList, createSession, getSelectedTools,
      callCreateSession, sendQuery, callQuery in *;
    unfold_js; cbn in *;
    repeat match type of Hsent with
           | context [if ?b then _ else _] =>
               destruct b; cbn in *; try discriminate Hsent
           | context [match ?x with Normal _ => _ | Throw _ => _ end] =>
               destruct x; cbn in *; try discriminate Hsent
           end;
    unfold response_ok; cbn; try rewrite Hst; cbn;
    eexists; eexists; (split; [reflexivity |]); cbn; repeat split.
Qed.

Lemma failed_call_leaves_state_unchanged_witness :
  exists e wf,
    drive [(FetchReply (inl (mkError "TypeError" "Failed to fetch")),
            run_world (sendQuery session_world))]
      (handler Query session_world) = Finished (Throw e) wf /\
    err_name e = "TypeError" /\
    events wf =
      (events (run_world (sendQuery session_world)) ++
       [EvError "Failed to fetch"])%list /\
    currentSessinId wf = currentSessinId (run_world (sendQuery session_world)) /\
    chat_content_tmp wf = chat_content_tmp (run_world (sendQuery session_world)) /\
    tool_container wf = tool_container (run_world (sendQuery session_world)).
Proof.
  apply (failed_call_leaves_state_unchanged Query session_world
           (query_request "default_user" "hello" (JStr "abc123"))
           [(FetchReply (inl (mkError "TypeError" "Failed to fetch")),
             run_world (sendQuery session_world))]);
    reflexivity.
Defined.

(** ** Rendering bodies that are not catalogs *)

(** X7. When the [/tools] response is ok but its body has no array under
    [tools] (the body is [null], the key is missing, the value is of
    another kind), [initCheckbox] keeps the body in [toolList], throws a
    [TypeError] and renders nothing. *)
Theorem initCheckbox_without_tools_array
    (w : World) (status : nat) (w1 : World) (body : JsValue) (w2 : World)
    (Hstatus : ok_status status = true)
    (Hnone : tools_array body = None) :
  exists e,
    drive [(FetchReply (inr status), w1); (JsonReply (inr body), w2)]
      (initCheckbox w) = Finished (Throw e) (set_toolList body w2) /\
    err_name e = "TypeError" /\
    tool_container (set_toolList body w2) = tool_container w2.
Proof.
  unfold initCheckbox, callGetToolList. unfold_js. cbn.
  unfold response_ok. cbn. rewrite Hstatus. cbn.
  unfold tools_array in Hnone.
  destruct (get_prop body "tools") as [tools | e] eqn:Htools; cbn.
  - destruct tools; try discriminate Hnone; cbn;
      eexists; repeat split.
  - exists e. repeat split.
    destruct body; cbn in Htools; try discriminate Htools;
      injection Htools as <-; reflexivity.
Qed.

Lemma initCheckbox_without_tools_array_witness :
  exists e,
    drive [(FetchReply (inr 200), fresh_world);
           (JsonReply (inr (JObj [("tools", JStr "search")])), fresh_world)]
      (initCheckbox fresh_world) =
      Finished (Throw e)
        (set_toolList (JObj [("tools", JStr "search")]) fresh_world) /\
    err_name e = "TypeError" /\
    tool_container (set_toolList (JObj [("tools", JStr "search")]) fresh_world) =
      tool_container fresh_world.
Proof.
  apply (initCheckbox_without_tools_array fresh_world 200 fresh_world
           (JObj [("tools", JStr "search")]) fresh_world);
    reflexivity.
Defined.

Lemma each_appendTool_app (tools : list Tool) (more : list JsValue) (w : World) :
  each appendTool (map tool_json tools ++ more) w =
    each appendTool more
      (set_tool_container (tool_container w ++ map checklist_entry tools) w).
Proof.
  revert w. induction tools as [| t rest IH]; intro w.
  - cbn [map app]. rewrite app_nil_r. destruct w; reflexivity.
  - cbn [map app each]. unfold bind at 1. cbn. rewrite IH. cbn.
    rewrite <- app_assoc. reflexivity.
Qed.

(** X8. When the catalog holds a [null] among its tools, [initCheckbox]
    renders the tools before it, then throws a [TypeError]: the tools after
    it are not rendered. *)
Theorem initCheckbox_stops_at_null_tool
    (w : World) (status : nat) (w1 : World)
    (before : list Tool) (after : list JsValue) (w2 : World)
    (Hstatus : ok_status status = true) :
  drive [(FetchReply (inr status), w1);
         (JsonReply (inr (JObj [("tools",
                                 JArr (map tool_json before ++ JNull :: after))])),
          w2)]
    (initCheckbox w) =
    Finished (Throw (TypeError_read JNull "name"))
      (set_tool_container (tool_container w2 ++ map checklist_entry before)
         (set_toolList
            (JObj [("tools", JArr (map tool_json before ++ JNull :: after))]) w2)).
Proof.
  unfold initCheckbox, callGetToolList. unfold_js. cbn.
  unfold response_ok. cbn. rewrite Hstatus. cbn.
  rewrite each_appendTool_app. reflexivity.
Qed.

Lemma initCheckbox_stops_at_null_tool_witness :
  drive [(FetchReply (inr 200), fresh_world);
         (JsonReply (inr (JObj [("tools",
                                 JArr (map tool_json [mkTool "search" "Web search"]
                                       ++ JNull :: [tool_json (mkTool "calc" "Calculator")]))])),
          fresh_world)]
    (initCheckbox fresh_world) =
    Finished (Throw (TypeError_read JNull "name"))
      (set_tool_container
         (tool_container fresh_world ++
          map checklist_entry [mkTool "search" "Web search"])
         (set_toolList
            (JObj [("tools",
                    JArr (map tool_json [mkTool "search" "Web search"]
                          ++ JNull :: [tool_json (mkTool "calc" "Calculator")]))])
            fresh_world)).
Proof.
  apply (initCheckbox_stops_at_null_tool fresh_world 200 fresh_world
           [mkTool "search" "Web search"]
           [tool_json (mkTool "calc" "Calculator")] fresh_world).
  reflexivity.
Defined.

(** ** Displaying bodies that are not answers *)

(** X9. When the [/query] response is ok but its body is [null],
    [sendQuery] keeps the body in [result] and throws a [TypeError]; the
    chat display keeps its text. *)
Theorem sendQuery_null_body_keeps_display
    (w : World) (req : Request) (status : nat) (w1 : World)
    (body : JsValue) (w2 : World)
    (Hsent : awaited_request (sendQuery w) = Some req)
    (Hstatus : ok_status status = true)
    (Hnull : nullish body = true) :
  drive [(FetchReply (inr status), w1); (JsonReply (inr body), w2)] (sendQuery w) =
    Finished (Throw (TypeError_read body "response")) (set_result body w2) /\
  chat_content_tmp (set_result body w2) = chat_content_tmp w2.
Proof.
  split; [| reflexivity].
  unfold sendQuery, callQuery in *. unfold_js. cbn in *.
  destruct (nullish (currentSessinId w)); cbn in *; [discriminate Hsent |].
  destruct (query_input w =? ""); cbn in *; [discriminate Hsent |].
  destruct (to_string (currentSessinId w)); cbn in *; [| discriminate Hsent].
  unfold response_ok. cbn. rewrite Hstatus. cbn.
  destruct body; try discriminate Hnull; reflexivity.
Qed.

Lemma sendQuery_null_body_keeps_display_witness :
  drive [(FetchReply (inr 200), run_world (sendQuery session_world));
         (JsonReply (inr JNull), run_world (sendQuery session_world))]
    (sendQuery session_world) =
    Finished (Throw (TypeError_read JNull "response"))
      (set_result JNull (run_world (sendQuery session_world))) /\
  chat_content_tmp (set_result JNull (run_world (sendQuery session_world))) =
    chat_content_tmp (run_world (sendQuery session_world)).
Proof.
  apply (sendQuery_null_body_keeps_display session_world
           (query_request "default_user" "hello" (JStr "abc123")) 200
           (run_world (sendQuery session_world)) JNull
           (run_world (sendQuery session_world)));
    reflexivity.
Defined.

(** X10. When the [/query] response is ok and its body has no [response]
    (or a [null] one), [sendQuery] returns normally and the chat display is
    cleared: assigning [undefined] or [null] to [textContent] leaves the
    empty text. *)
Theorem sendQuery_missing_response_clears_display
    (w : World) (req : Request) (status : nat) (w1 : World)
    (body answer : JsValue) (w2 : World)
    (Hsent : awaited_request (sendQuery w) = Some req)
    (Hstatus : ok_status status = true)
    (Hbody : get_prop body "response" = Normal answer)
    (Hnone : nullish answer = true) :
  drive [(FetchReply (inr status), w1); (JsonReply (inr body), w2)] (sendQuery w) =
    Finished (Normal tt) (set_chat_content_tmp "" (set_result body w2)).
Proof.
  unfold sendQuery, callQuery in *. unfold_js. cbn in *.
  destruct (nullish (currentSessinId w)); cbn in *; [discriminate Hsent |].
  destruct (query_input w =? ""); cbn in *; [discriminate Hsent |].
  destruct (to_string (currentSessinId w)); cbn in *; [| discriminate Hsent].
  unfold response_ok. cbn. rewrite Hstatus. cbn. rewrite Hbody.
  unfold dom_string_nullable. rewrite Hnone. reflexivity.
Qed.

Lemma sendQuery_missing_response_clears_display_witness :
  drive [(FetchReply (inr 200), run_world (sendQuery session_world));
         (JsonReply (inr (JObj [("error", JStr "no agent")])),
          set_chat_content_tmp "an earlier answer" (run_world (sendQuery session_world)))]
    (sendQuery session_world) =
    Finished (Normal tt)
      (set_chat_content_tmp ""
         (set_result (JObj [("error", JStr "no agent")])
            (set_chat_content_tmp "an earlier answer"
               (run_world (sendQuery session_world))))).
Proof.
  apply (sendQuery_missing_response_clears_display session_world
           (query_request "default_user" "hello" (JStr "abc123")) 200
           (run_world (sendQuery session_world))
           (JObj [("error", JStr "no agent")]) JUndefined
           (set_chat_content_tmp "an earlier answer"
              (run_world (sendQuery session_world))));
    reflexivity.
Defined.

(** ** From the rendered catalog to the selection *)

Lemma rendered_entries_unticked (tools : list Tool) :
  querySelectorAll_checked (map checklist_entry tools) = [].
Proof.
  induction tools as [| t rest IH]; [reflexivity |].
  cbn [map]. unfold querySelectorAll_checked in *. cbn. exact IH.
Qed.

(** X11. The entries [initCheckbox] renders are unticked: if nothing was
    ticked in the container when the catalog arrived, nothing is selected
    after the rendering, and a [createSession] that follows only warns that
    no tool is selected. *)
Theorem createSession_after_render_only_warns
    (w : World) (status : nat) (w1 : World) (tools : list Tool) (w2 : World)
    (Hstatus : ok_status status = true)
    (Hnone : selected_tools w2 = []) :
  exists w',
    drive [(FetchReply (inr status), w1);
           (JsonReply (inr (catalog_json tools)), w2)]
      (initCheckbox w) = Finished (Normal tt) w' /\
    selected_tools w' = [] /\
    createSession w' =
      Finished (Normal tt)
        (emit (EvAlert no_tool_warning) (emit (EvLog (JArr [])) w')).
Proof.
  eexists. split; [| split].
  - unfold initCheckbox, callGetToolList. unfold_js. cbn.
    unfold response_ok. cbn. rewrite Hstatus. cbn.
    rewrite each_appendTool_catalog. reflexivity.
  - unfold selected_tools in *. cbn.
    unfold querySelectorAll_checked in *.
    rewrite filter_app, map_app, Hnone.
    fold (querySelectorAll_checked (map checklist_entry tools)).
    rewrite rendered_entries_unticked. reflexivity.
  - unfold createSession, getSelectedTools. unfold_js. cbn.
    unfold selected_tools in Hnone. unfold querySelectorAll_checked in *.
    rewrite filter_app, map_app, Hnone.
    fold (querySelectorAll_checked (map checklist_entry tools)).
    rewrite rendered_entries_unticked. reflexivity.
Qed.

Lemma createSession_after_render_only_warns_witness :
  exists w',
    drive [(FetchReply (inr 200), fresh_world);
           (JsonReply (inr (catalog_json [mkTool "search" "Web search"])),
            fresh_world)]
      (initCheckbox fresh_world) = Finished (Normal tt) w' /\
    selected_tools w' = [] /\
    createSession w' =
      Finished (Normal tt)
        (emit (EvAlert no_tool_warning) (emit (EvLog (JArr [])) w')).
Proof.
  apply (createSession_after_render_only_warns fresh_world 200 fresh_world
           [mkTool "search" "Web search"] fresh_world);
    reflexivity.
Defined.

(** ** Registering the click listeners *)

Lemma drive_finished {A} (arrivals : list (Reply * World)) (c : Completion A)
    (w : World) :
  drive arrivals (Finished c w) = Finished c w.
Proof. destruct arrivals as [| [rp w'] rest]; reflexivity. Qed.

Lemma drive_bind_run {A B} (f : A -> Js B)
    (Hnow : forall a w, exists c w', f a w = Finished c w')
    (arrivals : list (Reply * World)) (r : Run A) :
  drive arrivals (bind_run r f) = bind_run (drive arrivals r) f.
Proof.
  revert r. induction arrivals as [| [rp w'] rest IH]; intro r; [reflexivity |].
  destruct r as [[a | e] w | R io w k].
  - rewrite (drive_finished ((rp, w') :: rest) (Normal a) w). cbn [bind_run].
    destruct (Hnow a w) as (c & w1 & Hf). rewrite Hf. apply drive_finished.
  - reflexivity.
  - destruct io; destruct rp as [ans | ans]; cbn; try reflexivity; apply IH.
Qed.

(** X12. The [DOMContentLoaded] listener gives the two buttons their click
    listeners exactly when [initCheckbox] has returned normally, and does
    nothing more; when [initCheckbox] throws, the listener throws the same
    error and registers nothing. *)
Theorem listeners_registered_after_render
    (w : World) (arrivals : list (Reply * World)) (c : Completion unit) (w' : World)
    (Hinit : drive arrivals (initCheckbox w) = Finished c w') :
  drive arrivals (onDOMContentLoaded w) =
    match c with
    | Normal _ =>
        Finished (Normal tt)
          (set_sendMessageBtn_click true (set_createSessionBtn_click true w'))
    | Throw e => Finished (Throw e) w'
    end.
Proof.
  unfold onDOMContentLoaded. unfold bind at 1.
  rewrite drive_bind_run.
  - rewrite Hinit. destruct c; reflexivity.
  - intros a w0. eexists. eexists. reflexivity.
Qed.

Lemma listeners_registered_after_render_witness :
  drive [(FetchReply (inr 200), fresh_world);
         (JsonReply (inr search_catalog), fresh_world)]
    (onDOMContentLoaded fresh_world) =
    Finished (Normal tt)
      (set_sendMessageBtn_click true
         (set_createSessionBtn_click true
            (set_tool_container [checklist_entry (mkTool "search" "Web search")]
               (set_toolList search_catalog fresh_world)))).
Proof.
  apply (listeners_registered_after_render fresh_world
           [(FetchReply (inr 200), fresh_world);
            (JsonReply (inr search_catalog), fresh_world)]
           (Normal tt)
           (set_tool_container [checklist_entry (mkTool "search" "Web search")]
              (set_toolList search_catalog fresh_world))).
  reflexivity.
Defined.

(** ** What the segments may touch *)

Lemma container_eta (w : World) :
  set_tool_container (tool_container w ++ []) w = w.
Proof. destruct w; cbn; rewrite app_nil_r; reflexivity. Qed.

Lemma each_appendTool_extends (items : list JsValue) (w : World) :
  exists c extra,
    each appendTool items w =
      Finished c (set_tool_container (tool_container w ++ extra) w).
Proof.
  revert w. induction items as [| tool rest IH]; intro w.
  - exists (Normal tt), []. cbn. rewrite container_eta. reflexivity.
  - cbn [each]. unfold bind.
    destruct (appendTool_cases tool w) as [[e ->] | [item ->]]; cbn [bind_run].
    + exists (Throw e), []. rewrite container_eta. reflexivity.
    + destruct (IH (set_tool_container (tool_container w ++ [item]) w))
        as (c & extra & ->).
      exists c, (item :: extra). cbn. rewrite <- app_assoc. reflexivity.
Qed.

Lemma forEach_appendTool_extends (callee : string) (v : JsValue) (w : World) :
  exists c extra,
    forEach callee v appendTool w =
      Finished c (set_tool_container (tool_container w ++ extra) w).
Proof.
  destruct v; cbn;
    try (eexists; exists []; rewrite container_eta; reflexivity).
  apply each_appendTool_extends.
Qed.

Lemma nullish_json_stringify (v : JsValue) :
  nullish (json_stringify v) = nullish v.
Proof. destruct v; reflexivity. Qed.

Ltac sent_requests :=
  let req := fresh "req" in
  let Hin := fresh "Hin" in
  intros req Hin; cbn in Hin;
  repeat match goal with
         | H : _ \/ _ |- _ => destruct H
         | H : False |- _ => destruct H
         | H : EvFetch _ = EvFetch _ |- _ => injection H as <-
         | H : _ = EvFetch _ |- _ => discriminate H
         end.

Ltac footprint :=
  unfold Footprint; cbn;
  split; [reflexivity |
  split; [reflexivity |
  split; [eexists; split; [events_grow | sent_requests] |
  split; [try (intros _; reflexivity); try (intros H; discriminate H) |
          exists []; split; [symmetry; apply app_nil_r | intros _; reflexivity]]]]].

Lemma sendQuery_footprint (w : World) :
  segments Footprint Started w (sendQuery w).
Proof.
  unfold sendQuery, callQuery. unfold_js. cbn.
  destruct (nullish (currentSessinId w)) eqn:Hn; cbn; [footprint |].
  destruct (query_input w =? "") eqn:Hq; cbn; [footprint |].
  destruct (to_string (currentSessinId w)) as [session_text | e]; cbn;
    [| footprint].
  split.
  - footprint.
    right; right.
    exists (query_input w), (json_stringify (currentSessinId w)).
    split; [apply String.eqb_neq, Hq |].
    split; [rewrite nullish_json_stringify; exact Hn |].
    destruct (currentSessinId w); try discriminate Hn; reflexivity.
  - intros [e | status] w'; cbn; [footprint |].
    destruct (response_ok _); cbn; [| footprint].
    split; [footprint |].
    intros [e | v] w''; cbn; [footprint |].
    destruct (get_prop v "response") as [response | e]; cbn; [| footprint].
    destruct (dom_string_nullable response); footprint.
Qed.

Lemma createSession_footprint (w : World) :
  segments Footprint Started w (createSession w).
Proof.
  unfold createSession, getSelectedTools, callCreateSession. unfold_js. cbn.
  fold (selected_tools w).
  destruct (length (selected_tools w) =? 0)%nat eqn:Hsel; cbn; [footprint |].
  split.
  - footprint.
    right; left. exists (selected_tools w). split.
    + intros Hnil. rewrite Hnil in Hsel. discriminate Hsel.
    + unfold creation_request. rewrite stringify_names. reflexivity.
  - intros [e | status] w'; cbn; [footprint |].
    destruct (response_ok _); cbn; [| footprint].
    split; [footprint |].
    intros [e | v] w''; cbn; [footprint |].
    destruct (get_prop v "session_id"); footprint.
Qed.

Lemma onDOMContentLoaded_footprint (w : World) :
  segments Footprint Started w (onDOMContentLoaded w).
Proof.
  unfold onDOMContentLoaded, initCheckbox, callGetToolList. unfold_js. cbn.
  split; [footprint; left; reflexivity |].
  intros [e | status] w'; cbn; [footprint |].
  destruct (response_ok _); cbn; [| footprint].
  split; [footprint |].
  intros [e | v] w''; cbn; [footprint |].
  destruct (get_prop v "tools") as [tools | e]; cbn; [| footprint].
  destruct (forEach_appendTool_extends "toolList.tools" tools (set_toolList v w''))
    as (c & extra & ->).
  destruct c as [[] | e]; cbn; unfold Footprint; cbn;
    (split; [reflexivity |
     split; [reflexivity |
     split; [exists []; split; [symmetry; apply app_nil_r | intros req []] |
     split; [intros _; reflexivity |
             exists extra; split; [reflexivity | intros H; discriminate H]]]]]).
Qed.

(** ** What the steps of the page may touch *)

Lemma reachable_footprint (C : Contract) (p : Page) (acts : list Action) (s : Sys) :
  run C acts (boot p) = Some s -> sys_ok Footprint s.
Proof.
  intros Hrun.
  apply (run_ok Footprint createSession_footprint sendQuery_footprint
           C acts (boot p) s); [| exact Hrun].
  apply boot_ok, onDOMContentLoaded_footprint.
Qed.

Lemma arrival_delivered (url : string) (a : Action) (s : Sys) (tr : Trigger) :
  trigger_of a s = Some tr -> arrival_from url tr = true ->
  exists i body,
    a = Deliver i (JsonReply (inr body)) /\ awaits_body_from url i s = true.
Proof.
  unfold arrival_from, awaits_body_from.
  destruct a as [ | | i | text | i rp]; cbn.
  - destruct (createSessionBtn_click (world s)); intros [= <-]; discriminate.
  - destruct (sendMessageBtn_click (world s)); intros [= <-]; discriminate.
  - discriminate.
  - discriminate.
  - destruct (nth_error (pending s) i) as [[c w | R io w k] |] eqn:Hnth;
      try discriminate.
    destruct io as [req | resp]; destruct rp as [ans | ans]; try discriminate;
      intros [= <-]; cbn; [discriminate |].
    destruct ans as [e | v]; [discriminate |].
    intros Hurl. exists i, v. split; [reflexivity |].
    rewrite Hnth. exact Hurl.
Qed.

Lemma step_footprint (C : Contract) (a : Action) (s s' : Sys) :
  sys_ok Footprint s -> step C a s = Some s' ->
  sys_ok Footprint s' /\
  userId (world s') = userId (world s) /\
  (exists evs,
      events (world s') = (events (world s) ++ evs)%list /\
      forall req, In (EvFetch req) evs -> sent_ok (userId (world s)) req) /\
  (chat_content_tmp (world s') = chat_content_tmp (world s) \/
   exists i body,
     a = Deliver i (JsonReply (inr body)) /\
     awaits_body_from queryEndpoint i s = true) /\
  (query_input (world s') = query_input (world s) \/
   exists text, a = TypeQuery text /\ query_input (world s') = text) /\
  ((exists i, a = ToggleCheckbox i /\
      tool_container (world s') = toggle i (tool_container (world s))) \/
   tool_container (world s') = tool_container (world s) \/
   exists extra i body,
     tool_container (world s') = (tool_container (world s) ++ extra)%list /\
     a = Deliver i (JsonReply (inr body)) /\
     awaits_body_from getToolListEndpoint i s = true).
Proof.
  intros Hok Hstep.
  destruct (step_segment Footprint createSession_footprint sendQuery_footprint
              C a s s' Hok Hstep) as [Hok' Hcases].
  split; [exact Hok' |].
  destruct Hcases as [(i & -> & ->) | [(text & -> & ->) | [[_ ->] | Hseg]]].
  - cbn. repeat split; eauto.
    exists []. split; [symmetry; apply app_nil_r | intros req []].
  - cbn. repeat split; eauto.
    exists []. split; [symmetry; apply app_nil_r | intros req []].
  - repeat split; auto.
    exists []. split; [symmetry; apply app_nil_r | intros req []].
  - destruct Hseg as (tr & w1 & Htr & _ & HF & Hland).
    destruct HF as (Hu & Hq & (evs & Hev & Hsent) & Hchat & (extra & Htc & Hextra)).
    assert (Hfields :
      userId (world s') = userId w1 /\
      query_input (world s') = query_input w1 /\
      chat_content_tmp (world s') = chat_content_tmp w1 /\
      tool_container (world s') = tool_container w1 /\
      exists more, events (world s') = (events w1 ++ more)%list /\
                   forall req, ~ In (EvFetch req) more).
    { destruct Hland as [-> | [e ->]]; cbn; repeat split.
      - exists []. split; [symmetry; apply app_nil_r | intros req []].
      - exists [EvUnhandledRejection e]. split; [reflexivity |].
        intros req [H | []]. discriminate H. }
    destruct Hfields as (Fu & Fq & Fc & Ft & more & Fe & Fmore).
    split; [congruence |]. split; [| split; [| split]].
    + exists (evs ++ more)%list. split.
      * rewrite Fe, Hev. symmetry. apply app_assoc.
      * intros req Hin. apply in_app_or in Hin. destruct Hin as [Hin | Hin].
        -- apply Hsent, Hin.
        -- destruct (Fmore req Hin).
    + destruct (arrival_from queryEndpoint tr) eqn:Harr.
      * right. exact (arrival_delivered _ _ _ _ Htr Harr).
      * left. rewrite Fc. apply Hchat. reflexivity.
    + left. congruence.
    + destruct (arrival_from getToolListEndpoint tr) eqn:Harr.
      * right; right.
        destruct (arrival_delivered _ _ _ _ Htr Harr) as (i & body & Ha & Haw).
        exists extra, i, body. rewrite Ft. auto.
      * right; left. rewrite Ft, Htc, (Hextra eq_refl). apply app_nil_r.
Qed.



(** X14. A step of the page changes the text of the chat display only when
    it delivers the body of a [/query] response: creations, the catalog,
    failures and the user's edits leave the display alone. *)
Theorem chat_display_changes_only_on_answer
    (C : Contract) (p : Page) (acts : list Action) (s : Sys)
    (a : Action) (s' : Sys)
    (Hreach : run C acts (boot p) = Some s)
    (Hstep : step C a s = Some s') :
  chat_content_tmp (world s') = chat_content_tmp (world s) \/
  exists i body,
    a = Deliver i (JsonReply (inr body)) /\
    awaits_body_from queryEndpoint i s = true.
Proof.
  pose proof (reachable_footprint C p acts s Hreach) as Hok.
  destruct (step_footprint C a s s' Hok Hstep) as (_ & _ & _ & Hchat & _).
  exact Hchat.
Qed.

Lemma chat_display_changes_only_on_answer_witness :
  chat_content_tmp (world answer_shown) = chat_content_tmp (world awaiting_answer) \/
  exists i body,
    Deliver 0 (JsonReply (inr (JObj [("response", JStr "hi")]))) =
      Deliver i (JsonReply (inr body)) /\
    awaits_body_from queryEndpoint i awaiting_answer = true.
Proof.
  apply (chat_display_changes_only_on_answer any_reply blank_page
           (until_creation_body ++ Deliver 0 (JsonReply (inr creation_body))
              :: [TypeQuery "hello"; ClickSendMessage;
                  Deliver 0 (FetchReply (inr 200))])
           awaiting_answer
           (Deliver 0 (JsonReply (inr (JObj [("response", JStr "hi")]))))
           answer_shown);
    vm_compute; reflexivity.
Defined.

(** X15. The script never edits what the user entered: a step changes the
    text of the query box only when the user types, and the tool container
    only by the user's tick or by appending entries when the [/tools] body
    arrives, so that ticks are kept and the query box is not cleared by
    sending. *)
Theorem user_input_is_kept
    (C : Contract) (p : Page) (acts : list Action) (s : Sys)
    (a : Action) (s' : Sys)
    (Hreach : run C acts (boot p) = Some s)
    (Hstep : step C a s = Some s') :
  (query_input (world s') = query_input (world s) \/
   exists text, a = TypeQuery text /\ query_input (world s') = text) /\
  ((exists i, a = ToggleCheckbox i /\
      tool_container (world s') = toggle i (tool_container (world s))) \/
   tool_container (world s') = tool_container (world s) \/
   exists extra i body,
     tool_container (world s') = (tool_container (world s) ++ extra)%list /\
     a = Deliver i (JsonReply (inr body)) /\
     awaits_body_from getToolListEndpoint i s = true).
Proof.
  pose proof (reachable_footprint C p acts s Hreach) as Hok.
  destruct (step_footprint C a s s' Hok Hstep) as (_ & _ & _ & _ & Hq & Ht).
  split; assumption.
Qed.

Lemma user_input_is_kept_witness :
  (query_input (world second_query_sent) = query_input (world after_first_exchange) \/
   exists text, ClickSendMessage = TypeQuery text /\
                query_input (world second_query_sent) = text) /\
  ((exists i, ClickSendMessage = ToggleCheckbox i /\
      tool_container (world second_query_sent) =
        toggle i (tool_container (world after_first_exchange))) \/
   tool_container (world second_query_sent) =
     tool_container (world after_first_exchange) \/
   exists extra i body,
     tool_container (world second_query_sent) =
       (tool_container (world after_first_exchange) ++ extra)%list /\
     ClickSendMessage = Deliver i (JsonReply (inr body)) /\
     awaits_body_from getToolListEndpoint i after_first_exchange = true).
Proof.
  apply (user_input_is_kept any_reply blank_page
           (until_creation_body ++ Deliver 0 (JsonReply (inr creation_body))
              :: first_exchange)
           after_first_exchange ClickSendMessage second_query_sent);
    vm_compute; reflexivity.
Defined.

(** ** A page whose catalog did not load *)

Lemma nothing_pending_no_delivery (C : Contract) (i : nat) (rp : Reply) (s : Sys) :
  pending s = [] -> step C (Deliver i rp) s = None.
Proof.
  intros Hp. unfold step. rewrite Hp. destruct i; reflexivity.
Qed.

Lemma dead_run (C : Contract) (acts : list Action) (s s' : Sys) :
  pending s = [] ->
  createSessionBtn_click (world s) = false ->
  sendMessageBtn_click (world s) = false ->
  run C acts s = Some s' ->
  pending s' = [] /\
  createSessionBtn_click (world s') = false /\
  sendMessageBtn_click (world s') = false /\
  events (world s') = events (world s) /\
  currentSessinId (world s') = currentSessinId (world s) /\
  chat_content_tmp (world s') = chat_content_tmp (world s).
Proof.
  revert s. induction acts as [| a rest IH]; cbn [run]; intros s Hp Hc Hs Hrun.
  - injection Hrun as <-. auto 10.
  - destruct (step C a s) as [s1 |] eqn:Hstep; [| discriminate].
    assert (H1 : pending s1 = [] /\
                 createSessionBtn_click (world s1) = false /\
                 sendMessageBtn_click (world s1) = false /\
                 events (world s1) = events (world s) /\
                 currentSessinId (world s1) = currentSessinId (world s) /\
                 chat_content_tmp (world s1) = chat_content_tmp (world s)).
    { destruct a as [ | | i | text | i rp].
      - cbn in Hstep. rewrite Hc in Hstep. injection Hstep as <-. auto 10.
      - cbn in Hstep. rewrite Hs in Hstep. injection Hstep as <-. auto 10.
      - cbn in Hstep. injection Hstep as <-. cbn. auto 10.
      - cbn in Hstep. injection Hstep as <-. cbn. auto 10.
      - rewrite (nothing_pending_no_delivery C i rp s Hp) in Hstep.
        discriminate Hstep. }
    destruct H1 as (Hp1 & Hc1 & Hs1 & He1 & Hi1 & Ht1).
    destruct (IH s1 Hp1 Hc1 Hs1 Hrun) as (Hp' & Hc' & Hs' & He' & Hi' & Ht').
    repeat split; congruence.
Qed.

(** X16. When the catalog request rejects or its response has no ok
    status, the page is dead: the error is logged, the [TypeError] of the
    load is reported as an unhandled rejection, and whatever the user does
    afterwards, the buttons have no click listener, no handler runs, no
    alert is shown and no further request is sent. *)
Theorem catalog_failure_leaves_page_dead
    (C : Contract) (p : Page) (ans : JsError + nat)
    (acts : list Action) (s' : Sys)
    (Hfail : fetch_failed ans = true)
    (Hrun : run C (Deliver 0 (FetchReply ans) :: acts) (boot p) = Some s') :
  pending s' = [] /\
  createSessionBtn_click (world s') = false /\
  sendMessageBtn_click (world s') = false /\
  events (world s') =
    [EvFetch catalog_request;
     EvError (fetch_failure_message ans);
     EvUnhandledRejection (TypeError_read JUndefined "tools")] /\
  currentSessinId (world s') = JNull.
Proof.
  cbn [run] in Hrun.
  destruct (step C (Deliver 0 (FetchReply ans)) (boot p)) as [s1 |] eqn:Hstep;
    [| discriminate].
  assert (H1 : pending s1 = [] /\
               createSessionBtn_click (world s1) = false /\
               sendMessageBtn_click (world s1) = false /\
               events (world s1) =
                 [EvFetch catalog_request;
                  EvError (fetch_failure_message ans);
                  EvUnhandledRejection (TypeError_read JUndefined "tools")] /\
               currentSessinId (world s1) = JNull).
  { unfold step, boot, spawn, onDOMContentLoaded, initCheckbox, callGetToolList
      in Hstep.
    unfold_js. cbn in Hstep.
    destruct (C _ _ ans); [| discriminate Hstep].
    destruct ans as [e | status]; cbn in Hstep, Hfail.
    - injection Hstep as <-. cbn. auto 10.
    - unfold response_ok in Hstep. cbn in Hstep.
      destruct (ok_status status); [discriminate Hfail |].
      cbn in Hstep. injection Hstep as <-. cbn. auto 10. }
  destruct H1 as (Hp1 & Hc1 & Hs1 & He1 & Hi1).
  destruct (dead_run C acts s1 s' Hp1 Hc1 Hs1 Hrun)
    as (Hp' & Hc' & Hs' & He' & Hi' & _).
  repeat split; congruence.
Qed.

Lemma catalog_failure_leaves_page_dead_witness :
  pending (after_run any_reply
             [Deliver 0 (FetchReply (inr 503)); ClickCreateSession;
              TypeQuery "hello"; ClickSendMessage]
             (boot blank_page)) = [] /\
  createSessionBtn_click
    (world (after_run any_reply
              [Deliver 0 (FetchReply (inr 503)); ClickCreateSession;
               TypeQuery "hello"; ClickSendMessage]
              (boot blank_page))) = false /\
  sendMessageBtn_click
    (world (after_run any_reply
              [Deliver 0 (FetchReply (inr 503)); ClickCreateSession;
               TypeQuery "hello"; ClickSendMessage]
              (boot blank_page))) = false /\
  events
    (world (after_run any_reply
              [Deliver 0 (FetchReply (inr 503)); ClickCreateSession;
               TypeQuery "hello"; ClickSendMessage]
              (boot blank_page))) =
    [EvFetch catalog_request;
     EvError (fetch_failure_message (inr 503));
     EvUnhandledRejection (TypeError_read JUndefined "tools")] /\
  currentSessinId
    (world (after_run any_reply
              [Deliver 0 (FetchReply (inr 503)); ClickCreateSession;
               TypeQuery "hello"; ClickSendMessage]
              (boot blank_page))) = JNull.
Proof.
  apply (catalog_failure_leaves_page_dead any_reply blank_page (inr 503)
           [ClickCreateSession; TypeQuery "hello"; ClickSendMessage]);
    vm_compute; reflexivity.
Defined.

(** X17. While the catalog is still on its way the buttons are inert:
    whatever the user clicks, ticks or types before the [/tools] response
    arrives, no handler runs, nothing is alerted and the catalog request
    stays the only request sent. *)
Theorem buttons_inert_while_loading
    (C : Contract) (p : Page) (acts : list Action) (s' : Sys)
    (Huser : user_only acts = true)
    (Hrun : run C acts (boot p) = Some s') :
  pending s' = pending (boot p) /\
  events (world s') = [EvFetch catalog_request] /\
  createSessionBtn_click (world s') = false /\
  sendMessageBtn_click (world s') = false /\
  currentSessinId (world s') = JNull.
Proof.
  assert (Hinv : forall acts s0 s1,
            user_only acts = true ->
            createSessionBtn_click (world s0) = false ->
            sendMessageBtn_click (world s0) = false ->
            run C acts s0 = Some s1 ->
            pending s1 = pending s0 /\
            events (world s1) = events (world s0) /\
            createSessionBtn_click (world s1) = false /\
            sendMessageBtn_click (world s1) = false /\
            currentSessinId (world s1) = currentSessinId (world s0)).
  { clear. intros acts. induction acts as [| a rest IH]; cbn [run user_only forallb];
      intros s0 s1 Hu Hc Hs Hrun.
    - injection Hrun as <-. auto 10.
    - apply andb_prop in Hu. destruct Hu as [Ha Hrest].
      destruct (step C a s0) as [s |] eqn:Hstep; [| discriminate].
      assert (H1 : pending s = pending s0 /\
                   events (world s) = events (world s0) /\
                   createSessionBtn_click (world s) = false /\
                   sendMessageBtn_click (world s) = false /\
                   currentSessinId (world s) = currentSessinId (world s0)).
      { destruct a as [ | | i | text | i rp]; try discriminate Ha.
        - cbn in Hstep. rewrite Hc in Hstep. injection Hstep as <-. auto 10.
        - cbn in Hstep. rewrite Hs in Hstep. injection Hstep as <-. auto 10.
        - cbn in Hstep. injection Hstep as <-. cbn. auto 10.
        - cbn in Hstep. injection Hstep as <-. cbn. auto 10. }
      destruct H1 as (Hp1 & He1 & Hc1 & Hs1 & Hi1).
      destruct (IH s s1 Hrest Hc1 Hs1 Hrun) as (Hp' & He' & Hc' & Hs' & Hi').
      repeat split; congruence. }
  destruct (Hinv acts (boot p) s' Huser eq_refl eq_refl Hrun)
    as (Hp & He & Hc & Hs & Hi).
  repeat split; assumption.
Qed.

Lemma buttons_inert_while_loading_witness :
  pending (after_run any_reply
             [ClickCreateSession; TypeQuery "hello"; ClickSendMessage]
             (boot blank_page)) = pending (boot blank_page) /\
  events (world (after_run any_reply
                   [ClickCreateSession; TypeQuery "hello"; ClickSendMessage]
                   (boot blank_page))) = [EvFetch catalog_request] /\
  createSessionBtn_click
    (world (after_run any_reply
              [ClickCreateSession; TypeQuery "hello"; ClickSendMessage]
              (boot blank_page))) = false /\
  sendMessageBtn_click
    (world (after_run any_reply
              [ClickCreateSession; TypeQuery "hello"; ClickSendMessage]
              (boot blank_page))) = false /\
  currentSessinId
    (world (after_run any_reply
              [ClickCreateSession; TypeQuery "hello"; ClickSendMessage]
              (boot blank_page))) = JNull.
Proof.
  apply (buttons_inert_while_loading any_reply blank_page
           [ClickCreateSession; TypeQuery "hello"; ClickSendMessage]);
    vm_compute; reflexivity.
Defined.

(** ** Sending a query *)



(** ** Conversion to a string *)

Example to_string_joins_arrays :
  to_string (JArr [JStr "a"; JNull; JArr [JNum "1"; JNum "2"]; JObj []]) =
    Normal "a,,1,2,[object Object]".
Proof. reflexivity. Qed.

Example to_string_own_toString_throws :
  to_string (JObj [("toString", JNum "1")]) = Throw TypeError_primitive /\
  to_string (JArr [JStr "a"; JObj [("toString", JNull)]]) =
    Throw TypeError_primitive /\
  sendQuery (set_currentSessinId (JObj [("toString", JNum "1")]) session_world) =
    Finished (Throw TypeError_primitive)
      (set_currentSessinId (JObj [("toString", JNum "1")]) session_world).
Proof. repeat split. Qed.
